(** * Device templates of the vManage client: model and verification

    A shallow embedding of [vmanage/api/device_templates.py] (class
    [DeviceTemplates]).  Python dictionaries with a fixed set of keys are
    records.  A key that may be missing is an [option] field: the code
    either tests it with [in] or reads it and raises [KeyError] when it is
    missing.  Catalogs keyed by name or
    id are [gmap string _].  Methods that issue requests or raise live in a
    small state-and-exception monad whose state holds the requests issued so
    far and the local list [device_template_updates] of the import. *)

From Stdlib Require Import String Ascii List Bool.
From stdpp Require Import base option list strings gmap.

(** ** Exceptions *)

(** The exceptions the module can raise. *)
Inductive exn : Type :=
| KeyError (key : string)
| AttributeError (attr : string)
| TypeError (msg : string)
| Exception (msg : string).

(** ** Data model *)

(** A sub-template reference by name. *)
Record SubTemplate : Type := mkSubTemplate {
  st_templateName : string;
  st_templateType : string
}.

(** An entry of [generalTemplates], addressed by name.  The code tests
    ['templateName' in template] and ['subTemplates' in template]. *)
Record GeneralTemplate : Type := mkGeneralTemplate {
  gt_templateName : option string;
  gt_templateType : string;
  gt_subTemplates : option (list SubTemplate)
}.

(** The same two shapes as the server holds them, addressed by id. *)
Record SubTemplateId : Type := mkSubTemplateId {
  sti_templateId : string;
  sti_templateType : string
}.

Record GeneralTemplateId : Type := mkGeneralTemplateId {
  gti_templateId : string;
  gti_templateType : string;
  gti_subTemplates : option (list SubTemplateId)
}.

(** A feature template of the remote catalog. *)
Record FeatureTemplate : Type := mkFeatureTemplate {
  ft_templateName : string;
  ft_templateId : string;
  ft_factoryDefault : bool
}.

(** One produced column of the input schema. *)
Record InputEntry : Type := mkInputEntry {
  e_title : string;
  e_property : string;
  e_variable : option string
}.

Record InputSchema : Type := mkInputSchema {
  columns : list InputEntry
}.

(** A device template addressed by name: an element of the desired list and
    of the list [get_device_template_list] returns.  It is identified by
    ['templateName']; every other key may be missing from a caller's
    dictionary. *)
Record DeviceTemplate : Type := mkDeviceTemplate {
  templateName : string;
  templateDescription : option string;
  deviceType : option string;
  configType : option string;
  factoryDefault : option bool;
  generalTemplates : option (list GeneralTemplate);
  templateConfiguration : option string;
  attached_devices : option (list string);
  input : option InputSchema
}.

(** The object [get_device_template_object] reads from the server. *)
Record ServerObject : Type := mkServerObject {
  so_templateName : string;
  so_templateDescription : string;
  so_deviceType : string;
  so_configType : string;
  so_factoryDefault : bool;
  so_generalTemplates : option (list GeneralTemplateId);
  so_templateConfiguration : option string
}.

(** An element of the list [get_device_templates] returns. *)
Record DeviceSummary : Type := mkDeviceSummary {
  ds_templateName : string;
  ds_templateId : string
}.

(** ** Responses of the input-schema endpoint *)

Record Column : Type := mkColumn {
  col_title : string;
  col_property : string;
  col_editable : bool
}.

Record Header : Type := mkHeader {
  hdr_columns : option (list Column)
}.

(** The value under ['json']: a falsy value, or a dictionary that may hold
    a ['header']. *)
Inductive JsonBody : Type :=
| json_falsy
| json_dict (header : option Header).

(** [resp_json = None] is a response without the key ['json']. *)
Record Response : Type := mkResponse {
  resp_json : option JsonBody
}.

(** ** The remote system

    What the transport answers, as far as this class reads it.  The
    transport ([HttpMethods]) and the envelope parser ([ParseMethods]) are
    not part of the module; their answers are the fields of this record. *)
Record Remote : Type := mkRemote {
  rem_device_templates : list DeviceSummary;
  rem_device_objects : gmap string ServerObject;
  rem_feature_templates : list FeatureTemplate;
  rem_attached : string -> list (gmap string string);
  rem_input : string -> Response
}.

(** ** Requests *)

(** The payload [add_device_template] posts. *)
Record Payload : Type := mkPayload {
  p_templateName : string;
  p_templateDescription : string;
  p_deviceType : string;
  p_factoryDefault : bool;
  p_configType : string;
  p_policyId : string;
  p_featureTemplateUidRange : list string;
  p_templateConfiguration : option string;
  p_generalTemplates : option (list GeneralTemplateId)
}.

Inductive request_body : Type :=
| no_body
| input_query (deviceIds : list string) (isEdited isMasterEdited : bool)
              (templateId : string)
| template_payload (p : Payload).

(** What the class does to the outside: a request it issues, and an entry
    into [add_device_template]. *)
Inductive event : Type :=
| Request (method api : string) (payload : request_body)
| Call_add_device_template (device_template : DeviceTemplate).

(** ** dictdiffer

    The values handed to [dictdiffer.diff]: the literal [{}], a
    configuration text, or a [generalTemplates] list. *)
Inductive value : Type :=
| empty_dict
| text (s : string)
| templates (l : list GeneralTemplate).

#[global] Instance SubTemplate_eq_dec : EqDecision SubTemplate.
Proof. solve_decision. Defined.
#[global] Instance GeneralTemplate_eq_dec : EqDecision GeneralTemplate.
Proof. solve_decision. Defined.
#[global] Instance value_eq_dec : EqDecision value.
Proof. solve_decision. Defined.

(** ** list_to_dict *)

(** Modelled from the spec: [vmanage.utils.list_to_dict] is not among the
    sources.  The catalog is "keyed by" the chosen attribute; the dictionary
    is filled in list order, so a later element replaces an earlier one with
    the same key.  The value keeps the whole record: the attribute that was
    the key is never read back from a dictionary value by this class. *)
Definition list_to_dict {A : Type} (key_name : A -> string) (l : list A)
  : gmap string A :=
  foldl (fun d x => <[key_name x := x]> d) ∅ l.

(** Modelled from the spec: [FeatureTemplates.get_feature_template_dict]
    ([vmanage/api/feature_templates.py] is not among the sources).  It
    returns the feature-template catalog keyed by [key_name], leaving out
    factory defaults unless [factory_default] is set. *)
Definition get_feature_template_dict (vm : Remote) (factory_default : bool)
    (key_name : FeatureTemplate -> string) : gmap string FeatureTemplate :=
  list_to_dict key_name
    (filter (fun t => Is_true (factory_default || negb (ft_factoryDefault t)))
            (rem_feature_templates vm)).

(** ** The pattern of [get_template_input]

    [re.compile(r'\((?P<variable>[^(]+)\)').search(title)]: the leftmost
    opening parenthesis after which a non-empty run of characters other than
    an opening parenthesis is followed by a closing one; the run is greedy,
    so it ends at the last closing parenthesis it can reach. *)

Definition is_open (c : ascii) : bool := Ascii.eqb c "("%char.
Definition is_close (c : ascii) : bool := Ascii.eqb c ")"%char.

(** The longest [v] free of opening parentheses with [s = v ++ ")" ++ _]:
    what [[^(]*] followed by [\)] matches at the start of [s]. *)
Fixpoint greedy_run (s : string) : option string :=
  match s with
  | EmptyString => None
  | String c s' =>
      if is_open c then None
      else match greedy_run s' with
           | Some v => Some (String c v)
           | None => if is_close c then Some EmptyString else None
           end
  end.

(** [[^(]+\)] at the start of [s]: one character that is not an opening
    parenthesis, then [greedy_run]. *)
Definition variable_at (s : string) : option string :=
  match s with
  | EmptyString => None
  | String c s' =>
      if is_open c then None
      else match greedy_run s' with
           | Some v => Some (String c v)
           | None => None
           end
  end.

(** [regex.search]: the first position where the pattern matches; the value
    is the group [variable]. *)
Fixpoint regex_search (s : string) : option string :=
  match s with
  | EmptyString => None
  | String c s' =>
      if is_open c then
        match variable_at s' with
        | Some v => Some v
        | None => regex_search s'
        end
      else regex_search s'
  end.

(** ** State and exceptions

    A method is a function from the state before the call to the outcome
    (an exception or a value) and the state after it. *)

Definition M (S A : Type) : Type := S -> (exn + A) * S.

Definition ret {S A} (a : A) : M S A := fun s => (inr a, s).

Definition bind {S A B} (c : M S A) (k : A -> M S B) : M S B :=
  fun s => match c s with
           | (inl e, s') => (inl e, s')
           | (inr a, s') => k a s'
           end.

Definition raise {S A} (e : exn) : M S A := fun s => (inl e, s).

Notation "'let*' x := c 'in' k" := (bind c (fun x => k))
  (at level 10, x name, c at level 100, k at level 200).
Notation "c ;; k" := (bind c (fun _ => k))
  (at level 100, k at level 200, right associativity).

(** [for x in l: result.append(f(x))] *)
Fixpoint mapM {S A B} (f : A -> M S B) (l : list A) : M S (list B) :=
  match l with
  | [] => ret []
  | x :: l' => let* y := f x in let* ys := mapM f l' in ret (y :: ys)
  end.

(** [for x in l: f(x)] *)
Fixpoint for_each {S A} (f : A -> M S unit) (l : list A) : M S unit :=
  match l with
  | [] => ret tt
  | x :: l' => f x ;; for_each f l'
  end.

Section Model.

(** [dictdiffer] is a third-party library: the type of its entries and the
    function [diff] are parameters of the model. *)
Context {DiffOp : Type}.
Variable dictdiffer_diff : value -> value -> list DiffOp.

(** An element of the list [import_device_template_list] returns. *)
Record ChangeRecord : Type := mkChangeRecord {
  name : string;
  diff : list DiffOp
}.

(** The state: the local list of the import and what the class did to the
    outside so far. *)
Record state : Type := mkState {
  device_template_updates : list ChangeRecord;
  events : list event
}.

Definition emit (ev : event) : M state unit :=
  fun s => (inr tt, mkState (device_template_updates s) (events s ++ [ev])).

(** [self.fail_json(msg=...)]: the class defines no attribute
    [fail_json], so looking it up raises [AttributeError] before the
    argument is evaluated; the message is never built and plays no part. *)
Definition fail_json {A} (msg : string) : M state A :=
  raise (AttributeError "fail_json").

(** ** Reading the remote system *)

Definition get_device_templates (vm : Remote) : M state (list DeviceSummary) :=
  emit (Request "GET" "template/device" no_body) ;;
  ret (rem_device_templates vm).

(** The answer is [response['json']] when there is one and [{}] otherwise;
    [None] is an answer the caller's [if obj:] rejects. *)
Definition get_device_template_object (vm : Remote) (template_id : string)
  : M state (option ServerObject) :=
  emit (Request "GET" ("template/device/object/" +:+ template_id) no_body) ;;
  ret (rem_device_objects vm !! template_id).

Definition get_template_attachments (vm : Remote) (template_id key : string)
  : M state (list string) :=
  emit (Request "GET" ("template/device/config/attached/" +:+ template_id)
                no_body) ;;
  mapM (fun device : gmap string string =>
          match device !! key with
          | Some v => ret v
          | None => raise (KeyError key)
          end)
       (rem_attached vm template_id).

(** The loop over [column_list]. *)
Fixpoint input_columns (column_list : list Column) : list InputEntry :=
  match column_list with
  | [] => []
  | column :: rest =>
      if col_editable column then
        mkInputEntry (col_title column) (col_property column)
                     (regex_search (col_title column))
        :: input_columns rest
      else input_columns rest
  end.

Definition get_template_input (vm : Remote) (template_id : string)
  : M state InputSchema :=
  emit (Request "POST" "template/device/config/input"
                (input_query [] false false template_id)) ;;
  match resp_json (rem_input vm template_id) with
  | None => raise (KeyError "json")
  | Some json_falsy => ret (mkInputSchema [])
  | Some (json_dict None) => ret (mkInputSchema [])
  | Some (json_dict (Some header)) =>
      match hdr_columns header with
      | None => ret (mkInputSchema [])
      | Some column_list => ret (mkInputSchema (input_columns column_list))
      end
  end.

(** ** Names to ids *)

Definition unknown_template (template_name : string) : string :=
  "There is no existing feature template named " +:+ template_name.

Definition sub_template_to_id (feature_templates : gmap string FeatureTemplate)
    (sub_template : SubTemplate) : M state SubTemplateId :=
  match feature_templates !! st_templateName sub_template with
  | Some ft =>
      ret (mkSubTemplateId (ft_templateId ft) (st_templateType sub_template))
  | None => fail_json (unknown_template (st_templateName sub_template))
  end.

Definition template_to_id (feature_templates : gmap string FeatureTemplate)
    (template : GeneralTemplate) : M state GeneralTemplateId :=
  match gt_templateName template with
  | None => raise (AttributeError "result")
  | Some template_name =>
      match feature_templates !! template_name with
      | Some ft =>
          match gt_subTemplates template with
          | Some sub_templates =>
              let* subTemplates :=
                mapM (sub_template_to_id feature_templates) sub_templates in
              ret (mkGeneralTemplateId (ft_templateId ft)
                     (gt_templateType template) (Some subTemplates))
          | None =>
              ret (mkGeneralTemplateId (ft_templateId ft)
                     (gt_templateType template) None)
          end
      | None => fail_json (unknown_template template_name)
      end
  end.

Definition generalTemplates_to_id (vm : Remote)
    (generalTemplates : list GeneralTemplate)
  : M state (list GeneralTemplateId) :=
  let feature_templates := get_feature_template_dict vm true ft_templateName in
  mapM (template_to_id feature_templates) generalTemplates.

(** ** Ids to names: the conversion inside [get_device_template_list] *)

Definition sub_template_to_name
    (feature_template_dict : gmap string FeatureTemplate)
    (sub_template : SubTemplateId) : M state SubTemplate :=
  match feature_template_dict !! sti_templateId sub_template with
  | Some ft =>
      ret (mkSubTemplate (ft_templateName ft) (sti_templateType sub_template))
  | None => raise (KeyError (sti_templateId sub_template))
  end.

Definition template_to_name
    (feature_template_dict : gmap string FeatureTemplate)
    (old_template : GeneralTemplateId) : M state GeneralTemplate :=
  match feature_template_dict !! gti_templateId old_template with
  | Some ft =>
      match gti_subTemplates old_template with
      | Some sub_templates =>
          let* subTemplates :=
            mapM (sub_template_to_name feature_template_dict) sub_templates in
          ret (mkGeneralTemplate (Some (ft_templateName ft))
                 (gti_templateType old_template) (Some subTemplates))
      | None =>
          ret (mkGeneralTemplate (Some (ft_templateName ft))
                 (gti_templateType old_template) None)
      end
  | None => raise (KeyError (gti_templateId old_template))
  end.

Definition generalTemplates_to_name
    (feature_template_dict : gmap string FeatureTemplate)
    (generalTemplates : list GeneralTemplateId)
  : M state (list GeneralTemplate) :=
  mapM (template_to_name feature_template_dict) generalTemplates.

(** ** Listing *)

(** One turn of the loop of [get_device_template_list]: the element
    appended to [return_list], if any. *)
Definition get_device_template_list_item (vm : Remote)
    (factory_default : bool) (name_list : list string)
    (feature_template_dict : gmap string FeatureTemplate)
    (device : DeviceSummary) : M state (option DeviceTemplate) :=
  if negb (bool_decide (name_list = []))
     && negb (bool_decide (ds_templateName device ∈ name_list))
  then ret None
  else
    let* obj := get_device_template_object vm (ds_templateId device) in
    match obj with
    | None => ret None
    | Some obj =>
        if negb factory_default && so_factoryDefault obj then ret None
        else
          match so_generalTemplates obj with
          | Some old_templates =>
              let* generalTemplates :=
                generalTemplates_to_name feature_template_dict old_templates in
              let* attached := get_template_attachments vm (ds_templateId device)
                                         "host-name" in
              let* inp := get_template_input vm (ds_templateId device) in
              ret (Some (mkDeviceTemplate
                           (so_templateName obj)
                           (Some (so_templateDescription obj))
                           (Some (so_deviceType obj))
                           (Some (so_configType obj))
                           (Some (so_factoryDefault obj))
                           (Some generalTemplates)
                           (so_templateConfiguration obj)
                           (Some attached)
                           (Some inp)))
          | None => ret None
          end
    end.

Definition get_device_template_list (vm : Remote) (factory_default : bool)
    (name_list : list string) : M state (list DeviceTemplate) :=
  let* device_templates := get_device_templates vm in
  let feature_template_dict :=
    get_feature_template_dict vm true ft_templateId in
  let* items := mapM (get_device_template_list_item vm factory_default name_list
                   feature_template_dict)
                device_templates in
  ret (omap id items).

Definition get_device_template_dict (vm : Remote) (factory_default : bool)
    (name_list : list string) : M state (gmap string DeviceTemplate) :=
  let* device_template_list :=
    get_device_template_list vm factory_default name_list in
  ret (list_to_dict templateName device_template_list).

(** ** Submission *)

(** [d[key]] for a key that may be missing. *)
Definition required {A} (key : string) (o : option A) : M state A :=
  match o with
  | Some a => ret a
  | None => raise (KeyError key)
  end.

Definition add_device_template (vm : Remote) (device_template : DeviceTemplate)
  : M state unit :=
  emit (Call_add_device_template device_template) ;;
  let* description :=
    required "templateDescription" (templateDescription device_template) in
  let* device_type := required "deviceType" (deviceType device_template) in
  let* factory_default :=
    required "factoryDefault" (factoryDefault device_template) in
  let* config_type := required "configType" (configType device_template) in
  let payload := mkPayload
    (templateName device_template)
    description device_type factory_default config_type
    "" [] in
  if String.eqb config_type "file" then
    match templateConfiguration device_template with
    | Some cfg =>
        emit (Request "POST" "template/device/cli"
                (template_payload (payload (Some cfg) None)))
    | None => raise (KeyError "templateConfiguration")
    end
  else
    match generalTemplates device_template with
    | Some gts =>
        let* ids := generalTemplates_to_id vm gts in
        emit (Request "POST" "template/device/feature"
                (template_payload (payload None (Some ids))))
    | None => raise (TypeError "Exception() takes no keyword arguments")
    end.

(** ** Import *)

Definition unknown_type (template_name : string) : string :=
  "Template " +:+ template_name +:+ " is of unknown type".

Definition append_update (r : ChangeRecord) : M state unit :=
  fun s => (inr tt, mkState (device_template_updates s ++ [r]) (events s)).

(** The body of the loop of [import_device_template_list]. *)
Definition import_device_template (vm : Remote)
    (device_template_dict : gmap string DeviceTemplate)
    (check_mode update : bool) (device_template : DeviceTemplate)
  : M state unit :=
  match device_template_dict !! templateName device_template with
  | Some existing_template =>
      let* d := match generalTemplates device_template with
           | Some gts =>
               match generalTemplates existing_template with
               | Some old => ret (dictdiffer_diff (templates old) (templates gts))
               | None => raise (KeyError "generalTemplates")
               end
           | None =>
               match templateConfiguration device_template with
               | Some cfg =>
                   match templateConfiguration existing_template with
                   | Some old => ret (dictdiffer_diff (text old) (text cfg))
                   | None => raise (KeyError "templateConfiguration")
                   end
               | None =>
                   raise (Exception
                            (unknown_type (templateName device_template)))
               end
           end in
      if negb (bool_decide (d = [])) then
        append_update (mkChangeRecord (templateName device_template) d) ;;
        if negb check_mode && update then
          if negb check_mode then add_device_template vm device_template
          else ret tt
        else ret tt
      else ret tt
  | None =>
      let* d := match generalTemplates device_template with
           | Some gts => ret (dictdiffer_diff empty_dict (templates gts))
           | None =>
               match templateConfiguration device_template with
               | Some cfg => ret (dictdiffer_diff empty_dict (text cfg))
               | None =>
                   raise (Exception
                            (unknown_type (templateName device_template)))
               end
           end in
      append_update (mkChangeRecord (templateName device_template) d) ;;
      if negb check_mode then add_device_template vm device_template
      else ret tt
  end.

Definition import_device_template_list (vm : Remote)
    (device_template_list : list DeviceTemplate) (check_mode update : bool)
  : M state (list ChangeRecord) :=
  (fun s => (inr tt, mkState [] (events s))) ;;
  let* device_template_dict := get_device_template_dict vm false [] in
  for_each (import_device_template vm device_template_dict check_mode update)
           device_template_list ;;
  (fun s => (inr (device_template_updates s), s)).

End Model.

(** ** Reading an outcome *)

(** The value a call hands to its caller: none when it raises. *)
Definition returned {S A : Type} (r : (exn + A) * S) : option A :=
  match r.1 with
  | inr a => Some a
  | inl _ => None
  end.

(** The templates [add_device_template] was entered with. *)
Definition add_calls (evs : list event) : list DeviceTemplate :=
  omap (fun ev => match ev with
                  | Call_add_device_template t => Some t
                  | Request _ _ _ => None
                  end) evs.

(** The payloads posted to the two creation endpoints. *)
Definition submissions (evs : list event) : list Payload :=
  omap (fun ev => match ev with
                  | Request _ _ (template_payload p) => Some p
                  | _ => None
                  end) evs.

(** ** Vocabulary of the statements about the pattern *)

Fixpoint has_open (s : string) : bool :=
  match s with
  | EmptyString => false
  | String c s' => is_open c || has_open s'
  end.

(** [title] holds a parenthesized token: an opening parenthesis, a
    non-empty text without opening parenthesis, a closing parenthesis. *)
Definition has_token (title : string) : Prop :=
  exists pre v post,
    title = pre +:+ String "(" (v +:+ String ")" post)
    /\ v <> EmptyString /\ has_open v = false.

(** What [get_template_input] makes of one editable column. *)
Definition entry_of (column : Column) : InputEntry :=
  mkInputEntry (col_title column) (col_property column)
               (regex_search (col_title column)).

(** ** Vocabulary of the statements about name resolution *)

(** Every name of the node, its own and those of its sub-templates, is a
    key of the catalog. *)
Definition resolvable (feature_templates : gmap string FeatureTemplate)
    (template : GeneralTemplate) : bool :=
  match gt_templateName template with
  | Some n => bool_decide (is_Some (feature_templates !! n))
  | None => false
  end
  && match gt_subTemplates template with
     | Some subs =>
         forallb (fun sub => bool_decide
                    (is_Some (feature_templates !! st_templateName sub)))
                 subs
     | None => true
     end.

(** The node, or one of its sub-templates, carries a name that is not a
    key of the catalog. *)
Definition has_unknown_name (feature_templates : gmap string FeatureTemplate)
    (template : GeneralTemplate) : Prop :=
  (exists n, gt_templateName template = Some n
             /\ feature_templates !! n = None)
  \/ (exists subs sub, gt_subTemplates template = Some subs /\ sub ∈ subs
                       /\ feature_templates !! st_templateName sub = None).

(** The exception raised where the code means to report a name the
    catalog does not hold: the failed lookup of [self.fail_json]. *)
Definition fail_json_error (e : exn) : Prop :=
  e = AttributeError "fail_json".

(** In the catalog an id stands for one name. *)
Definition id_names_one_template (l : list FeatureTemplate) : Prop :=
  forall a b, a ∈ l -> b ∈ l ->
    ft_templateId a = ft_templateId b -> ft_templateName a = ft_templateName b.

(** ** Vocabulary of the statements about the import *)

(** A request that only reads: it carries no template payload. *)
Definition is_read (ev : event) : bool :=
  match ev with
  | Request _ _ no_body => true
  | Request _ _ (input_query _ _ _ _) => true
  | Request _ _ (template_payload _) => false
  | Call_add_device_template _ => false
  end.

(** A computation that only reads: it leaves [device_template_updates]
    alone and adds nothing but reading requests. *)
Definition reads_only {DiffOp A} (c : M (state (DiffOp := DiffOp)) A) : Prop :=
  forall s, exists evs,
    (c s).2 = mkState (device_template_updates s) (events s ++ evs)
    /\ forallb is_read evs = true.

(** The payload the import compares for a desired template, in the order
    of its [if]/[elif]. *)
Definition payload_value (device_template : DeviceTemplate) : option value :=
  match generalTemplates device_template with
  | Some gts => Some (templates gts)
  | None =>
      match templateConfiguration device_template with
      | Some cfg => Some (text cfg)
      | None => None
      end
  end.

(** The data-model invariant: exactly one of [generalTemplates] and
    [templateConfiguration] is present. *)
Definition exactly_one_payload (device_template : DeviceTemplate) : bool :=
  xorb (bool_decide (is_Some (generalTemplates device_template)))
       (bool_decide (is_Some (templateConfiguration device_template))).

(** The two payloads the specification compares for a name that exists:
    the existing template's [generalTemplates] if present, else its
    [templateConfiguration], and the same field of the desired template. *)
Definition spec_payloads (existing_template device_template : DeviceTemplate)
  : option (value * value) :=
  match generalTemplates existing_template with
  | Some old =>
      match generalTemplates device_template with
      | Some gts => Some (templates old, templates gts)
      | None => None
      end
  | None =>
      match templateConfiguration existing_template,
            templateConfiguration device_template with
      | Some old, Some cfg => Some (text old, text cfg)
      | _, _ => None
      end
  end.

(** ** A diff instance and sample data *)

(** The entry [('change', '', (first, second))] of dictdiffer. *)
Inductive Change : Type :=
| change (first second : value).

(** An instance of the parameter [dictdiffer_diff].  It is what
    [dictdiffer.diff] yields for two texts and for two values of different
    types (such as [{}] against a list or a text): nothing when they are
    equal, one [change] entry otherwise.  For two lists dictdiffer splits
    the difference into finer entries; the instance is empty in the same
    cases. *)
Definition change_diff (first second : value) : list Change :=
  if decide (first = second) then [] else [change first second].

Definition sample_feature_templates : list FeatureTemplate :=
  [ mkFeatureTemplate "leaf-A" "id-A" false;
    mkFeatureTemplate "sub-B" "id-B" false;
    mkFeatureTemplate "Factory_Default_AAA" "id-F" true ].

Definition sample_columns : list Column :=
  [ mkColumn "Hostname (hostname)" "//system/host-name" true;
    mkColumn "Description" "//system/description" true;
    mkColumn "Chassis Number (csv-deviceId)" "csv-deviceId" false ].

Definition sample_input (template_id : string) : Response :=
  if String.eqb template_id "dt-1"
  then mkResponse (Some (json_dict (Some (mkHeader (Some sample_columns)))))
  else if String.eqb template_id "dt-2"
  then mkResponse (Some (json_dict (Some (mkHeader None))))
  else mkResponse (Some json_falsy).

(** A server with no device template. *)
Definition remote_empty : Remote :=
  mkRemote [] ∅ sample_feature_templates (fun _ => []) sample_input.

(** A server with one file template, not a factory default. *)
Definition remote_file : Remote :=
  mkRemote [mkDeviceSummary "F1" "dt-9"]
           {[ "dt-9" := mkServerObject "F1" "cli" "vedge-cloud" "file" false
                                       None (Some "hostname r1") ]}
           sample_feature_templates (fun _ => []) sample_input.

(** A server with one feature template. *)
Definition remote_feature : Remote :=
  mkRemote [mkDeviceSummary "T1" "dt-1"]
           {[ "dt-1" := mkServerObject "T1" "branch" "vedge-cloud" "template"
                          false
                          (Some [mkGeneralTemplateId "id-A" "cisco_leaf" None])
                          None ]}
           sample_feature_templates
           (fun _ => [ {[ "host-name" := "r1" ]} ]) sample_input.

Definition template_F1 : DeviceTemplate :=
  mkDeviceTemplate "F1" (Some "cli") (Some "vedge-cloud") (Some "file")
    (Some false)
    None (Some "hostname r1") None None.

Definition template_F2 : DeviceTemplate :=
  mkDeviceTemplate "F2" (Some "cli") (Some "vedge-cloud") (Some "file")
    (Some false)
    None (Some "hostname r2") None None.

(** Neither [generalTemplates] nor [templateConfiguration]. *)
Definition template_bad : DeviceTemplate :=
  mkDeviceTemplate "B" (Some "none") (Some "vedge-cloud") (Some "template")
    (Some false)
    None None None None.

Definition nodes_known : list GeneralTemplate :=
  [ mkGeneralTemplate (Some "leaf-A") "cisco_leaf"
      (Some [mkSubTemplate "sub-B" "cisco_sub"]);
    mkGeneralTemplate (Some "Factory_Default_AAA") "aaa" None ].

(** The second node has a sub-template the catalog does not hold. *)
Definition node_unknown_sub : GeneralTemplate :=
  mkGeneralTemplate (Some "leaf-A") "cisco_leaf"
    (Some [mkSubTemplate "sub-B" "cisco_sub";
           mkSubTemplate "sub-X" "cisco_sub"]).

Definition nodes_unknown : list GeneralTemplate :=
  [ mkGeneralTemplate (Some "leaf-A") "cisco_leaf" None; node_unknown_sub ].

(** A feature template whose leaf the catalog does not hold. *)
Definition template_unknown_leaf : DeviceTemplate :=
  mkDeviceTemplate "T9" (Some "branch") (Some "vedge-cloud") (Some "template")
    (Some false)
    (Some [mkGeneralTemplate (Some "leaf-X") "cisco_leaf" None])
    None None None.

(** The desired state of [T1]: the server's, with one more node. *)
Definition template_T1 : DeviceTemplate :=
  mkDeviceTemplate "T1" (Some "branch") (Some "vedge-cloud") (Some "template")
    (Some false)
    (Some nodes_known) None None None.

(** [T1] as [get_device_template_list] returns it for [remote_feature]. *)
Definition existing_T1 : DeviceTemplate :=
  mkDeviceTemplate "T1" (Some "branch") (Some "vedge-cloud") (Some "template")
    (Some false)
    (Some [mkGeneralTemplate (Some "leaf-A") "cisco_leaf" None]) None
    (Some ["r1"])
    (Some (mkInputSchema
             [ mkInputEntry "Hostname (hostname)" "//system/host-name"
                            (Some "hostname");
               mkInputEntry "Description" "//system/description" None ])).

Definition state_0 : state (DiffOp := Change) := mkState [] [].

(** ** Vocabulary of the further properties *)

(** [i] is what the catalog makes of the sub-template [sub]. *)
Definition sub_resolved (feature_templates : gmap string FeatureTemplate)
    (sub : SubTemplate) (i : SubTemplateId) : Prop :=
  exists ft,
    feature_templates !! st_templateName sub = Some ft
    /\ sti_templateId i = ft_templateId ft
    /\ sti_templateType i = st_templateType sub.

(** [i] is what the catalog makes of the node [template]: the id found
    under its name, its type, and its sub-templates one for one. *)
Definition node_resolved (feature_templates : gmap string FeatureTemplate)
    (template : GeneralTemplate) (i : GeneralTemplateId) : Prop :=
  exists n ft,
    gt_templateName template = Some n
    /\ feature_templates !! n = Some ft
    /\ gti_templateId i = ft_templateId ft
    /\ gti_templateType i = gt_templateType template
    /\ match gt_subTemplates template, gti_subTemplates i with
       | Some subs, Some ids => Forall2 (sub_resolved feature_templates) subs ids
       | None, None => True
       | _, _ => False
       end.

(** The name of the template is not a key of the catalog. *)
Definition absent (device_template_dict : gmap string DeviceTemplate)
    (device_template : DeviceTemplate) : bool :=
  match device_template_dict !! templateName device_template with
  | Some _ => false
  | None => true
  end.

(** The catalog holds the template under its name with the payload the
    template carries. *)
Definition up_to_date (device_template_dict : gmap string DeviceTemplate)
    (device_template : DeviceTemplate) : Prop :=
  exists existing_template v,
    device_template_dict !! templateName device_template
    = Some existing_template
    /\ exactly_one_payload device_template = true
    /\ spec_payloads existing_template device_template = Some (v, v).

(** In the catalog a name stands for one id. *)
Definition name_names_one_id (l : list FeatureTemplate) : Prop :=
  forall a b, a ∈ l -> b ∈ l ->
    ft_templateName a = ft_templateName b -> ft_templateId a = ft_templateId b.

(** Every id of the node, its own and those of its sub-templates, is a key
    of the catalog keyed by id. *)
Definition id_known (feature_template_dict : gmap string FeatureTemplate)
    (old_template : GeneralTemplateId) : bool :=
  bool_decide (is_Some (feature_template_dict !! gti_templateId old_template))
  && match gti_subTemplates old_template with
     | Some subs =>
         forallb (fun sub => bool_decide
                    (is_Some (feature_template_dict !! sti_templateId sub)))
                 subs
     | None => true
     end.

(** A computation that neither reads nor changes the state. *)
Definition stateless {S A} (c : M S A) : Prop :=
  exists r, forall s, c s = (r, s).

(** The device is one the caller asked for by name. *)
Definition listed (name_list : list string) (device : DeviceSummary) : bool :=
  bool_decide (ds_templateName device ∈ name_list).

(** The same server without the device templates the caller did not ask
    for. *)
Definition only_listed (vm : Remote) (name_list : list string) : Remote :=
  mkRemote (List.filter (listed name_list) (rem_device_templates vm))
           (rem_device_objects vm) (rem_feature_templates vm)
           (rem_attached vm) (rem_input vm).

(** ** More sample data *)

(** [T1] as the server has it. *)
Definition template_T1_unchanged : DeviceTemplate :=
  mkDeviceTemplate "T1" (Some "branch") (Some "vedge-cloud") (Some "template")
    (Some false)
    (Some [mkGeneralTemplate (Some "leaf-A") "cisco_leaf" None])
    None None None.


(** A node without ['templateName']. *)
Definition node_unnamed : GeneralTemplate :=
  mkGeneralTemplate None "cisco_leaf" None.

(** A server with two feature templates, the second of which refers to a
    feature template the catalog does not hold. *)
Definition remote_dangling : Remote :=
  mkRemote [mkDeviceSummary "T1" "dt-1"; mkDeviceSummary "T2" "dt-2"]
           {[ "dt-1" := mkServerObject "T1" "branch" "vedge-cloud" "template"
                          false
                          (Some [mkGeneralTemplateId "id-A" "cisco_leaf" None])
                          None;
              "dt-2" := mkServerObject "T2" "hub" "vedge-cloud" "template"
                          false
                          (Some [mkGeneralTemplateId "id-A" "cisco_leaf"
                                   (Some [mkSubTemplateId "id-Z" "cisco_sub"])])
                          None ]}
           sample_feature_templates
           (fun _ => [ {[ "host-name" := "r1" ]} ]) sample_input.

(** * Properties *)

Section Pattern.

Lemma greedy_run_sound s : forall v,
  greedy_run s = Some v ->
  has_open v = false /\ exists post, s = v +:+ String ")" post.
Proof.
  induction s as [|c s IH]; intros v; simpl; [discriminate|].
  destruct (is_open c) eqn:Hc; [discriminate|].
  destruct (greedy_run s) as [w|] eqn:Hs.
  - intros [= <-]. destruct (IH w eq_refl) as [Hw [post ->]].
    split; [simpl; by rewrite Hc|]. by exists post.
  - destruct (is_close c) eqn:Hcl; [|discriminate].
    intros [= <-]. split; [done|]. exists s. simpl.
    apply Ascii.eqb_eq in Hcl. by subst c.
Qed.

Lemma greedy_run_complete v : forall post,
  has_open v = false -> is_Some (greedy_run (v +:+ String ")" post)).
Proof.
  induction v as [|c v IH]; intros post; simpl.
  - intros _. destruct (greedy_run post); eauto.
  - intros [Hc Hv]%orb_false_elim. rewrite Hc.
    destruct (IH post Hv) as [w ->]. eauto.
Qed.

Lemma variable_at_sound s v :
  variable_at s = Some v ->
  v <> EmptyString /\ has_open v = false
  /\ exists post, s = v +:+ String ")" post.
Proof.
  destruct s as [|c s]; simpl; [discriminate|].
  destruct (is_open c) eqn:Hc; [discriminate|].
  destruct (greedy_run s) as [w|] eqn:Hs; [|discriminate].
  intros [= <-]. destruct (greedy_run_sound _ _ Hs) as [Hw [post ->]].
  split; [done|]. split; [simpl; by rewrite Hc|]. by exists post.
Qed.

Lemma variable_at_complete v post :
  v <> EmptyString -> has_open v = false ->
  is_Some (variable_at (v +:+ String ")" post)).
Proof.
  destruct v as [|c v]; [done|]. intros _. simpl.
  intros [Hc Hv]%orb_false_elim. rewrite Hc.
  destruct (greedy_run_complete v post Hv) as [w ->]. eauto.
Qed.

Lemma regex_search_sound s : forall v,
  regex_search s = Some v ->
  exists pre post,
    s = pre +:+ String "(" (v +:+ String ")" post)
    /\ v <> EmptyString /\ has_open v = false.
Proof.
  induction s as [|c s IH]; intros v; simpl; [discriminate|].
  assert (Hrec : regex_search s = Some v ->
    exists pre post,
      String c s = pre +:+ String "(" (v +:+ String ")" post)
      /\ v <> EmptyString /\ has_open v = false).
  { intros H. destruct (IH v H) as (pre & post & -> & Hv).
    by exists (String c pre), post. }
  destruct (is_open c) eqn:Hc; [|done].
  destruct (variable_at s) as [w|] eqn:Hs; [|done].
  intros [= <-]. destruct (variable_at_sound _ _ Hs) as (Hne & Hw & post & ->).
  exists EmptyString, post. simpl. apply Ascii.eqb_eq in Hc. by subst c.
Qed.

Lemma regex_search_complete s : has_token s -> is_Some (regex_search s).
Proof.
  intros (pre & v & post & -> & Hne & Hv).
  induction pre as [|c pre IH]; simpl.
  - destruct (variable_at_complete v post Hne Hv) as [w ->]. eauto.
  - destruct (is_open c); [|done].
    destruct (variable_at _); eauto.
Qed.

Lemma greedy_run_longest s : forall v,
  greedy_run s = Some v ->
  forall v1 post1,
    s = v1 +:+ String ")" post1 -> has_open v1 = false ->
    String.length v1 <= String.length v.
Proof.
  induction s as [|c s IH]; intros v; simpl; [discriminate|].
  destruct (is_open c) eqn:Hc; [discriminate|].
  destruct (greedy_run s) as [w|] eqn:Hs.
  - intros [= <-] [|c1 v1] post1; simpl; [lia|].
    intros [= _ ->] [_ Hv1]%orb_false_elim.
    specialize (IH w eq_refl v1 post1 eq_refl Hv1). lia.
  - destruct (is_close c); [|discriminate].
    intros [= <-] [|c1 v1] post1; simpl; [lia|].
    intros [= _ ->] [_ Hv1]%orb_false_elim.
    destruct (greedy_run_complete v1 post1 Hv1) as [w Hw]. congruence.
Qed.

(** The match is the leftmost one, and the longest one at its position. *)
Lemma regex_search_first s : forall v,
  regex_search s = Some v ->
  exists pre post,
    s = pre +:+ String "(" (v +:+ String ")" post)
    /\ forall pre1 v1 post1,
         s = pre1 +:+ String "(" (v1 +:+ String ")" post1) ->
         v1 <> EmptyString -> has_open v1 = false ->
         String.length pre <= String.length pre1
         /\ (String.length pre1 = String.length pre ->
             String.length v1 <= String.length v).
Proof.
  induction s as [|c s IH]; intros v; simpl; [discriminate|].
  assert (Hrec : regex_search s = Some v ->
    (forall v1 post1, s = v1 +:+ String ")" post1 ->
       v1 <> EmptyString -> has_open v1 = false -> c <> "("%char) ->
    exists pre post,
      String c s = pre +:+ String "(" (v +:+ String ")" post)
      /\ forall pre1 v1 post1,
           String c s = pre1 +:+ String "(" (v1 +:+ String ")" post1) ->
           v1 <> EmptyString -> has_open v1 = false ->
           String.length pre <= String.length pre1
           /\ (String.length pre1 = String.length pre ->
               String.length v1 <= String.length v)).
  { intros H Hhere. destruct (IH v H) as (pre & post & -> & Hfirst).
    exists (String c pre), post. split; [done|].
    intros [|c1 pre1] v1 post1; simpl.
    - intros [= -> Heq] Hne Hv1. by destruct (Hhere v1 post1 Heq Hne Hv1).
    - intros [= _ Heq] Hne Hv1.
      destruct (Hfirst pre1 v1 post1 Heq Hne Hv1) as [Hle Hlong].
      split; [lia|]. intros Hlen. apply Hlong. lia. }
  destruct (is_open c) eqn:Hc.
  - destruct (variable_at s) as [w|] eqn:Hs.
    + intros [= <-].
      destruct (variable_at_sound _ _ Hs) as (Hne & Hw & post & ->).
      apply Ascii.eqb_eq in Hc as ->.
      exists EmptyString, post. split; [done|].
      intros pre1 v1 post1 Heq Hne1 Hv1. simpl. split; [lia|].
      destruct pre1 as [|c1 pre1]; simpl; [|discriminate].
      intros _. simpl in Heq. injection Heq as Heq.
      destruct w as [|cw w]; [done|]. destruct v1 as [|c1 v1]; [done|].
      simpl in Hs, Heq, Hv1. injection Heq as <- Heq.
      apply orb_false_elim in Hv1 as [Hc1 Hv1].
      rewrite Hc1 in Hs.
      destruct (greedy_run (w +:+ String ")" post)) as [w'|] eqn:Hrun;
        [|discriminate].
      injection Hs as ->.
      pose proof (greedy_run_longest _ _ Hrun v1 post1 Heq Hv1). simpl. lia.
    + intros H. apply Hrec; [done|].
      intros v1 post1 -> Hne Hv1.
      destruct (variable_at_complete v1 post1 Hne Hv1) as [w Hw]. congruence.
  - intros H. apply Hrec; [done|].
    intros _ _ _ _ _ ->. discriminate Hc.
Qed.

(** The search fails exactly on the titles without a token. *)
Lemma regex_search_None s : regex_search s = None <-> ~ has_token s.
Proof.
  split.
  - intros H Ht. destruct (regex_search_complete s Ht) as [v Hv]. congruence.
  - intros H. destruct (regex_search s) as [v|] eqn:Hs; [|done].
    destruct H. destruct (regex_search_sound _ _ Hs) as (pre & post & ? & ? & ?).
    by exists pre, v, post.
Qed.

Lemma input_columns_filter column_list :
  input_columns column_list
  = map (fun c => mkInputEntry (col_title c) (col_property c)
                               (regex_search (col_title c)))
        (List.filter col_editable column_list).
Proof.
  induction column_list as [|c l IH]; simpl; [done|].
  destruct (col_editable c); simpl; by rewrite IH.
Qed.

End Pattern.

Section Input.

Context {DiffOp : Type}.
Local Abbreviation st := (state (DiffOp := DiffOp)).

(** C9.  When the input-schema answer carries a column list,
    [get_template_input] returns one entry per column whose [editable] flag
    is true, in order, and nothing for the other columns; the entry keeps
    the title and the property, and its variable is what the pattern finds
    in the title: ["hostname"] for ["Hostname (hostname)"], null for a
    title without a parenthesized token, and in general the text of the
    first parenthesized token (the leftmost one, taken as long as it can
    be). *)
Theorem get_template_input_editable_columns
    (vm : Remote) (template_id : string) (header : Header)
    (column_list : list Column) (s : st) :
  resp_json (rem_input vm template_id) = Some (json_dict (Some header)) ->
  hdr_columns header = Some column_list ->
  returned (get_template_input vm template_id s)
  = Some (mkInputSchema (map entry_of (List.filter col_editable column_list)))
  /\ (forall p,
        entry_of (mkColumn "Hostname (hostname)" p true)
        = mkInputEntry "Hostname (hostname)" p (Some "hostname"))
  /\ (forall column,
        ~ has_token (col_title column) ->
        entry_of column
        = mkInputEntry (col_title column) (col_property column) None)
  /\ (forall column v,
        e_variable (entry_of column) = Some v ->
        v <> EmptyString /\ has_open v = false
        /\ exists pre post,
             col_title column = pre +:+ String "(" (v +:+ String ")" post)
             /\ forall pre1 v1 post1,
                  col_title column
                  = pre1 +:+ String "(" (v1 +:+ String ")" post1) ->
                  v1 <> EmptyString -> has_open v1 = false ->
                  String.length pre <= String.length pre1
                  /\ (String.length pre1 = String.length pre ->
                      String.length v1 <= String.length v)).
Proof.
  intros Hjson Hcols. split; [|split; [|split]].
  - unfold returned, get_template_input, bind, emit. simpl.
    rewrite Hjson, Hcols. simpl. by rewrite input_columns_filter.
  - done.
  - intros column Hno. unfold entry_of.
    by apply regex_search_None in Hno as ->.
  - intros column v Hv. simpl in Hv.
    destruct (regex_search_sound _ _ Hv) as (_ & _ & _ & Hne & Hopen).
    split; [done|]. split; [done|]. by apply regex_search_first.
Qed.

(** C10.  A falsy ['json'] body, a body without ['header'] and a header
    without ['columns'] all make [get_template_input] return
    [{"columns": []}] without raising; the only effect is the request. *)
Theorem get_template_input_default
    (vm : Remote) (template_id : string) (s : st) :
  resp_json (rem_input vm template_id) = Some json_falsy
  \/ resp_json (rem_input vm template_id) = Some (json_dict None)
  \/ (exists header,
        resp_json (rem_input vm template_id) = Some (json_dict (Some header))
        /\ hdr_columns header = None) ->
  get_template_input vm template_id s
  = (inr (mkInputSchema []),
     mkState (device_template_updates s)
             (events s ++ [Request "POST" "template/device/config/input"
                             (input_query [] false false template_id)])).
Proof.
  unfold get_template_input, bind, emit. simpl.
  intros [-> | [-> | (header & -> & ->)]]; reflexivity.
Qed.

End Input.

Section Catalog.

Context {A : Type} (key_name : A -> string).

Lemma foldl_insert_lookup (l : list A) : forall (d : gmap string A) k x,
  foldl (fun d x => <[key_name x := x]> d) d l !! k = Some x ->
  (x ∈ l /\ key_name x = k) \/ d !! k = Some x.
Proof.
  induction l as [|y l IH]; intros d k x; simpl; [by right|].
  intros H. destruct (IH _ _ _ H) as [[Hin Hk] | Hd].
  - left. split; [by apply list_elem_of_further | done].
  - destruct (decide (key_name y = k)) as [<- | Hne].
    + rewrite lookup_insert_eq in Hd. injection Hd as <-.
      left. split; [apply list_elem_of_here | done].
    + rewrite lookup_insert_ne in Hd by done. by right.
Qed.

Lemma foldl_insert_is_Some (l : list A) : forall (d : gmap string A) k,
  is_Some (d !! k) \/ (exists x, x ∈ l /\ key_name x = k) ->
  is_Some (foldl (fun d x => <[key_name x := x]> d) d l !! k).
Proof.
  induction l as [|y l IH]; intros d k; simpl.
  - intros [H | (x & Hin & _)]; [done | by apply elem_of_nil in Hin].
  - intros H. apply IH.
    destruct (decide (key_name y = k)) as [<- | Hne].
    + left. rewrite lookup_insert_eq. eauto.
    + destruct H as [H | (x & Hin & Hk)].
      * left. by rewrite lookup_insert_ne.
      * apply elem_of_cons in Hin as [-> | Hin]; [done|]. right. eauto.
Qed.

Lemma list_to_dict_lookup (l : list A) k x :
  list_to_dict key_name l !! k = Some x -> x ∈ l /\ key_name x = k.
Proof.
  intros H. destruct (foldl_insert_lookup _ _ _ _ H) as [? | Hd]; [done|].
  by rewrite lookup_empty in Hd.
Qed.

Lemma list_to_dict_is_Some (l : list A) x :
  x ∈ l -> is_Some (list_to_dict key_name l !! key_name x).
Proof. intros H. apply foldl_insert_is_Some. right. eauto. Qed.

End Catalog.

Section Resolution.

Context {DiffOp : Type}.
Local Abbreviation st := (state (DiffOp := DiffOp)).

Variable feature_templates : gmap string FeatureTemplate.

Local Abbreviation known :=
  (fun sub => bool_decide (is_Some (feature_templates !! st_templateName sub))).

(** The inner loop: it leaves the state alone, returns when every name is
    known and raises for the first unknown one otherwise. *)
Lemma sub_templates_to_id_outcome (subs : list SubTemplate) (s : st) :
  exists r, mapM (sub_template_to_id feature_templates) subs s = (r, s)
    /\ (forallb known subs = true -> exists ids, r = inr ids)
    /\ (forallb known subs = false ->
        exists e, r = inl e /\ fail_json_error e).
Proof.
  induction subs as [|sub subs IH]; simpl.
  - exists (inr []). split; [done|]. split; [eauto | done].
  - unfold bind, sub_template_to_id at 1.
    destruct (feature_templates !! st_templateName sub) as [ft|] eqn:Hft.
    + rewrite bool_decide_eq_true_2 by eauto. simpl.
      destruct IH as (r & -> & Hok & Hko). destruct r as [e|ids].
      * exists (inl e). eauto.
      * exists (inr (mkSubTemplateId (ft_templateId ft) (st_templateType sub)
                       :: ids)).
        split; [done|]. split; [eauto|].
        intros H. destruct (Hko H) as (e & ? & _). done.
    + rewrite bool_decide_eq_false_2 by (by intros [? ?]). simpl.
      exists (inl (AttributeError "fail_json")).
      split; [done|]. split; [done|]. intros _.
      eexists. split; [done|]. reflexivity.
Qed.

(** One turn of the outer loop. *)
Lemma template_to_id_outcome (template : GeneralTemplate) (s : st) :
  exists r, template_to_id feature_templates template s = (r, s)
    /\ (resolvable feature_templates template = true -> exists i, r = inr i)
    /\ (resolvable feature_templates template = false ->
        exists e, r = inl e
          /\ (is_Some (gt_templateName template) ->
              fail_json_error e)).
Proof.
  unfold template_to_id, resolvable.
  destruct (gt_templateName template) as [n|]; simpl.
  2:{ exists (inl (AttributeError "result")). split; [done|].
      split; [done|]. intros _. eexists. split; [done|]. by intros [? ?]. }
  destruct (feature_templates !! n) as [ft|] eqn:Hft.
  2:{ rewrite bool_decide_eq_false_2 by (by intros [? ?]). simpl.
      exists (inl (AttributeError "fail_json")). split; [done|].
      split; [done|]. intros _. eexists. split; [done|].
      intros _. reflexivity. }
  rewrite bool_decide_eq_true_2 by eauto. simpl.
  destruct (gt_subTemplates template) as [subs|].
  2:{ eexists. split; [done|]. split; [eauto | done]. }
  unfold bind.
  destruct (sub_templates_to_id_outcome subs s) as (r & -> & Hok & Hko).
  destruct r as [e|ids].
  - exists (inl e). split; [done|]. split.
    + intros H. destruct (Hok H) as (? & ?). done.
    + intros H. destruct (Hko H) as (e' & [= <-] & He). eauto.
  - eexists. split; [done|]. split; [eauto|].
    intros H. destruct (Hko H) as (? & ? & _). done.
Qed.

(** The outer loop. *)
Lemma templates_to_id_outcome (gts : list GeneralTemplate) (s : st) :
  exists r, mapM (template_to_id feature_templates) gts s = (r, s)
    /\ (forallb (resolvable feature_templates) gts = true ->
        exists ids, r = inr ids)
    /\ (forallb (resolvable feature_templates) gts = false ->
        exists e, r = inl e
          /\ (Forall (fun t => is_Some (gt_templateName t)) gts ->
              fail_json_error e)).
Proof.
  induction gts as [|t gts IH]; simpl.
  - exists (inr []). split; [done|]. split; [eauto | done].
  - unfold bind.
    destruct (template_to_id_outcome t s) as (r & -> & Hok & Hko).
    destruct (resolvable feature_templates t) eqn:Ht; simpl.
    + destruct (Hok eq_refl) as (i & ->).
      destruct IH as (r & -> & Hok' & Hko'). destruct r as [e|ids].
      * exists (inl e). split; [done|]. split.
        -- intros H. destruct (Hok' H) as (? & ?). done.
        -- intros H. destruct (Hko' H) as (e' & [= <-] & He).
           eexists. split; [done|]. intros Hall. apply He.
           by apply Forall_cons in Hall as [_ ?].
      * eexists. split; [done|]. split; [eauto|].
        intros H. destruct (Hko' H) as (? & ? & _). done.
    + destruct (Hko eq_refl) as (e & -> & He).
      exists (inl e). split; [done|]. split; [done|]. intros _.
      eexists. split; [done|]. intros Hall. apply He.
      by apply Forall_cons in Hall as [? _].
Qed.

End Resolution.

Section Unknown_name.

Context {DiffOp : Type}.
Local Abbreviation st := (state (DiffOp := DiffOp)).

Lemma has_unknown_name_not_resolvable feature_templates template :
  has_unknown_name feature_templates template ->
  resolvable feature_templates template = false.
Proof.
  unfold resolvable.
  intros [(n & -> & Hn) | (subs & sub & -> & Hin & Hsub)].
  - rewrite bool_decide_eq_false_2; [done|]. rewrite Hn. by intros [? ?].
  - apply andb_false_intro2. apply not_true_is_false. intros Hall.
    rewrite forallb_forall in Hall.
    apply list_elem_of_In, Hall, bool_decide_eq_true in Hin.
    rewrite Hsub in Hin. by destruct Hin.
Qed.

Lemma exists_not_resolvable feature_templates (gts : list GeneralTemplate) t :
  t ∈ gts -> resolvable feature_templates t = false ->
  forallb (resolvable feature_templates) gts = false.
Proof.
  intros Hin Ht. apply not_true_is_false. intros Hall.
  rewrite forallb_forall in Hall. apply list_elem_of_In, Hall in Hin.
  congruence.
Qed.

(** When a node of the sequence, or a sub-template of a node, carries a
    name that is not a key of the feature-template catalog fetched with
    factory defaults included, [generalTemplates_to_id] raises whatever the
    other nodes are and returns no sequence at all.  The exception is the
    failed lookup of [self.fail_json] as soon as every node has a
    ['templateName']; it does not tell which name was unknown. *)
Lemma generalTemplates_to_id_raises
    (vm : Remote) (generalTemplates : list GeneralTemplate)
    (template : GeneralTemplate) (s : st) :
  template ∈ generalTemplates ->
  has_unknown_name (get_feature_template_dict vm true ft_templateName)
                   template ->
  exists e,
    generalTemplates_to_id vm generalTemplates s = (inl e, s)
    /\ returned (generalTemplates_to_id vm generalTemplates s) = None
    /\ (Forall (fun t => is_Some (gt_templateName t)) generalTemplates ->
        fail_json_error e).
Proof.
  intros Hin Hunk. unfold generalTemplates_to_id.
  destruct (templates_to_id_outcome
              (get_feature_template_dict vm true ft_templateName)
              generalTemplates s) as (r & Hrun & _ & Hko).
  destruct Hko as (e & -> & He).
  { eapply exists_not_resolvable; [done|].
    by apply has_unknown_name_not_resolvable. }
  exists e. unfold returned. rewrite Hrun. done.
Qed.

End Unknown_name.

Section Round_trip.

Context {DiffOp : Type}.
Local Abbreviation st := (state (DiffOp := DiffOp)).

(** Both dictionaries index one list: the id found under a name leads back
    to that name. *)
Lemma name_id_name (l : list FeatureTemplate) n ft :
  id_names_one_template l ->
  list_to_dict ft_templateName l !! n = Some ft ->
  exists ft', list_to_dict ft_templateId l !! ft_templateId ft = Some ft'
              /\ ft_templateName ft' = n.
Proof.
  intros Hone [Hin <-]%list_to_dict_lookup.
  destruct (list_to_dict_is_Some ft_templateId l ft Hin) as [ft' Hft'].
  exists ft'. split; [done|].
  apply list_to_dict_lookup in Hft' as [Hin' Hid]. by apply Hone.
Qed.

Variables by_name by_id : gmap string FeatureTemplate.
Hypothesis back : forall n ft,
  by_name !! n = Some ft ->
  exists ft', by_id !! ft_templateId ft = Some ft' /\ ft_templateName ft' = n.

Lemma sub_templates_round_trip (subs : list SubTemplate) :
  forall ids (s s1 s2 : st),
  mapM (sub_template_to_id by_name) subs s = (inr ids, s1) ->
  mapM (sub_template_to_name by_id) ids s2 = (inr subs, s2).
Proof.
  induction subs as [|sub subs IH]; intros ids s s1 s2; simpl.
  - by intros [= <- _].
  - unfold bind at 1, sub_template_to_id at 1.
    destruct (by_name !! st_templateName sub) as [ft|] eqn:Hft; [|done].
    simpl. unfold bind at 1.
    destruct (mapM (sub_template_to_id by_name) subs s) as [[e|ids'] s'] eqn:Hrun;
      [done|]. simpl. intros [= <- _]. simpl.
    unfold bind at 1, sub_template_to_name at 1. simpl.
    destruct (back _ _ Hft) as (ft' & -> & Hname). simpl.
    unfold bind. rewrite (IH _ _ _ s2 Hrun). simpl.
    rewrite Hname. by destruct sub.
Qed.

Lemma template_round_trip (t : GeneralTemplate) (i : GeneralTemplateId)
    (s s1 s2 : st) :
  template_to_id by_name t s = (inr i, s1) ->
  template_to_name by_id i s2 = (inr t, s2).
Proof.
  unfold template_to_id.
  destruct t as [[n|] ty subs]; simpl; [|done].
  destruct (by_name !! n) as [ft|] eqn:Hft; [|done].
  destruct (back _ _ Hft) as (ft' & Hid & Hname).
  destruct subs as [subs|].
  - unfold bind at 1.
    destruct (mapM (sub_template_to_id by_name) subs s) as [[e|ids] s'] eqn:Hrun;
      [done|]. simpl. intros [= <- _].
    unfold template_to_name. simpl. rewrite Hid. unfold bind.
    rewrite (sub_templates_round_trip _ _ _ _ s2 Hrun). simpl. by rewrite Hname.
  - intros [= <- _]. unfold template_to_name. simpl. rewrite Hid. simpl.
    by rewrite Hname.
Qed.

Lemma templates_round_trip (gts : list GeneralTemplate) :
  forall ids (s s1 s2 : st),
  mapM (template_to_id by_name) gts s = (inr ids, s1) ->
  mapM (template_to_name by_id) ids s2 = (inr gts, s2).
Proof.
  induction gts as [|t gts IH]; intros ids s s1 s2; simpl.
  - by intros [= <- _].
  - unfold bind at 1.
    destruct (template_to_id by_name t s) as [[e|i] s'] eqn:Ht; [done|].
    unfold bind at 1.
    destruct (mapM (template_to_id by_name) gts s') as [[e|ids'] s''] eqn:Hrun;
      [done|]. simpl. intros [= <- _]. simpl.
    unfold bind. rewrite (template_round_trip _ _ _ _ s2 Ht).
    by rewrite (IH _ _ _ s2 Hrun).
Qed.

End Round_trip.

Section Round_trip_remote.

Context {DiffOp : Type}.
Local Abbreviation st := (state (DiffOp := DiffOp)).

(** C7.  When every name of a [generalTemplates] sequence, nested
    sub-templates included, is a key of the feature-template catalog,
    [generalTemplates_to_id] returns a sequence of ids, and converting that
    sequence back the way [get_device_template_list] does returns the
    original sequence: same names, same types, same order at both levels.
    The catalog is one in which an id stands for one name. *)
Theorem generalTemplates_round_trip
    (vm : Remote) (generalTemplates : list GeneralTemplate) (s : st) :
  id_names_one_template (rem_feature_templates vm) ->
  forallb (resolvable (get_feature_template_dict vm true ft_templateName))
          generalTemplates = true ->
  exists ids,
    generalTemplates_to_id vm generalTemplates s = (inr ids, s)
    /\ forall s' : st,
         generalTemplates_to_name
           (get_feature_template_dict vm true ft_templateId) ids s'
         = (inr generalTemplates, s').
Proof.
  intros Hone Hall. unfold generalTemplates_to_id, generalTemplates_to_name.
  destruct (templates_to_id_outcome
              (get_feature_template_dict vm true ft_templateName)
              generalTemplates s) as (r & Hrun & Hok & _).
  destruct (Hok Hall) as (ids & ->). exists ids. split; [done|].
  intros s'. eapply templates_round_trip; [|exact Hrun].
  intros n ft. unfold get_feature_template_dict. apply name_id_name.
  intros a b [_ Ha]%list_elem_of_filter [_ Hb]%list_elem_of_filter.
  by apply Hone.
Qed.

End Round_trip_remote.

(** ** Effects of the methods on the state *)

Section Effects.

Context {DiffOp : Type}.
Local Abbreviation st := (state (DiffOp := DiffOp)).
Local Abbreviation reads := (reads_only (DiffOp := DiffOp)).

Lemma add_calls_app evs evs' :
  add_calls (evs ++ evs') = add_calls evs ++ add_calls evs'.
Proof. unfold add_calls. by rewrite omap_app. Qed.

Lemma submissions_app evs evs' :
  submissions (evs ++ evs') = submissions evs ++ submissions evs'.
Proof. unfold submissions. by rewrite omap_app. Qed.

Lemma add_calls_reads evs : forallb is_read evs = true -> add_calls evs = [].
Proof.
  induction evs as [|ev evs IH]; simpl; [done|].
  intros [Hev Hevs]%andb_prop. destruct ev as [? ? []|]; try done; by apply IH.
Qed.

Lemma submissions_reads evs :
  forallb is_read evs = true -> submissions evs = [].
Proof.
  induction evs as [|ev evs IH]; simpl; [done|].
  intros [Hev Hevs]%andb_prop. destruct ev as [? ? []|]; try done; by apply IH.
Qed.

Lemma reads_only_ret {A} (a : A) : reads (ret a).
Proof. intros [u evs]. exists []. simpl. by rewrite app_nil_r. Qed.

Lemma reads_only_raise {A} (e : exn) : reads (raise (A := A) e).
Proof. intros [u evs]. exists []. simpl. by rewrite app_nil_r. Qed.

Lemma reads_only_emit ev : is_read ev = true -> reads (emit ev).
Proof. intros H s. exists [ev]. simpl. by rewrite H. Qed.

Lemma reads_only_bind {A B} (c : M st A) (k : A -> M st B) :
  reads_only c -> (forall a, reads (k a)) -> reads (bind c k).
Proof.
  intros Hc Hk s. unfold bind. destruct (Hc s) as (evs & Hs & Hevs).
  destruct (c s) as [[e|a] s']; simpl in *; [by exists evs|].
  destruct (Hk a s') as (evs' & Hs' & Hevs'). exists (evs ++ evs').
  rewrite Hs'. subst s'. simpl. rewrite app_assoc. split; [done|].
  rewrite forallb_app. by rewrite Hevs, Hevs'.
Qed.

Lemma reads_only_mapM {A B} (f : A -> M st B) (l : list A) :
  (forall x, reads (f x)) -> reads (mapM f l).
Proof.
  intros Hf. induction l as [|x l IH]; simpl; [apply reads_only_ret|].
  apply reads_only_bind; [done|]. intros y.
  apply reads_only_bind; [done|]. intros ys. apply reads_only_ret.
Qed.

Lemma reads_only_get_template_input vm template_id :
  reads (get_template_input vm template_id).
Proof.
  unfold get_template_input. apply reads_only_bind.
  - by apply reads_only_emit.
  - intros _. destruct (resp_json _) as [[|[header|]]|];
      try apply reads_only_ret; try apply reads_only_raise.
    destruct (hdr_columns header); apply reads_only_ret.
Qed.

Lemma reads_only_get_template_attachments vm template_id key :
  reads (get_template_attachments vm template_id key).
Proof.
  unfold get_template_attachments. apply reads_only_bind.
  - by apply reads_only_emit.
  - intros _. apply reads_only_mapM. intros device.
    destruct (device !! key); [apply reads_only_ret | apply reads_only_raise].
Qed.

Lemma reads_only_generalTemplates_to_name feature_template_dict ids :
  reads (generalTemplates_to_name feature_template_dict ids).
Proof.
  apply reads_only_mapM. intros old. unfold template_to_name.
  destruct (_ !! _); [|apply reads_only_raise].
  destruct (gti_subTemplates old); [|apply reads_only_ret].
  apply reads_only_bind; [|intros; apply reads_only_ret].
  apply reads_only_mapM. intros sub. unfold sub_template_to_name.
  destruct (_ !! _); [apply reads_only_ret | apply reads_only_raise].
Qed.

Lemma reads_only_get_device_template_list vm factory_default name_list :
  reads (get_device_template_list vm factory_default name_list).
Proof.
  unfold get_device_template_list. apply reads_only_bind.
  { unfold get_device_templates. apply reads_only_bind;
      [by apply reads_only_emit | intros; apply reads_only_ret]. }
  intros device_templates.
  apply reads_only_bind; [|intros; apply reads_only_ret].
  apply reads_only_mapM. intros device. unfold get_device_template_list_item.
  destruct (_ && _); [apply reads_only_ret|].
  apply reads_only_bind.
  { unfold get_device_template_object. apply reads_only_bind;
      [by apply reads_only_emit | intros; apply reads_only_ret]. }
  intros [obj|]; [|apply reads_only_ret].
  destruct (_ && _); [apply reads_only_ret|].
  destruct (so_generalTemplates obj); [|apply reads_only_ret].
  apply reads_only_bind; [apply reads_only_generalTemplates_to_name|].
  intros gts.
  apply reads_only_bind; [apply reads_only_get_template_attachments|].
  intros attached.
  apply reads_only_bind; [apply reads_only_get_template_input|].
  intros inp. apply reads_only_ret.
Qed.

Lemma reads_only_get_device_template_dict vm factory_default name_list :
  reads (get_device_template_dict vm factory_default name_list).
Proof.
  unfold get_device_template_dict. apply reads_only_bind;
    [apply reads_only_get_device_template_list | intros; apply reads_only_ret].
Qed.

End Effects.

(** ** The loop of the import *)

Section Import_loop.

Context {DiffOp : Type}.
Variable dictdiffer_diff : value -> value -> list DiffOp.
Local Abbreviation st := (state (DiffOp := DiffOp)).
Local Abbreviation body := (import_device_template dictdiffer_diff).

Lemma for_each_app {A} (f : A -> M st unit) (l1 l2 : list A) (s : st) :
  for_each f (l1 ++ l2) s
  = match for_each f l1 s with
    | (inl e, s') => (inl e, s')
    | (inr _, s') => for_each f l2 s'
    end.
Proof.
  revert s. induction l1 as [|x l1 IH]; intros s; simpl; [done|].
  unfold bind. destruct (f x s) as [[e|[]] s']; [done|]. apply IH.
Qed.

(** [add_device_template] records its call first, adds no second call,
    and leaves [device_template_updates] alone. *)
Lemma add_device_template_effect vm t (s : st) :
  exists r evs,
    add_device_template vm t s
    = (r, mkState (device_template_updates s)
                  (events s ++ Call_add_device_template t :: evs))
    /\ add_calls evs = [].
Proof.
  unfold add_device_template, required, bind, emit. simpl.
  destruct (templateDescription t); simpl; [|by eexists _, []].
  destruct (deviceType t); simpl; [|by eexists _, []].
  destruct (factoryDefault t); simpl; [|by eexists _, []].
  destruct (configType t) as [config_type|]; simpl; [|by eexists _, []].
  destruct (String.eqb config_type "file").
  - destruct (templateConfiguration t); simpl.
    + eexists _, [_]. rewrite <- app_assoc. by split.
    + by eexists _, [].
  - destruct (generalTemplates t) as [gts|]; simpl; [|by eexists _, []].
    unfold generalTemplates_to_id.
    match goal with
    | |- context [mapM ?f gts ?s0] =>
        destruct (templates_to_id_outcome
                    (get_feature_template_dict vm true ft_templateName)
                    gts s0) as (r & -> & _)
    end.
    destruct r as [e|ids]; simpl.
    + by eexists _, [].
    + eexists _, [_]. rewrite <- app_assoc. by split.
Qed.

(** The branch for a new name, one template: the record is appended, then
    [add_device_template] is entered, whatever [update] is. *)
Lemma import_device_template_absent
    (vm : Remote) (device_template_dict : gmap string DeviceTemplate)
    (update : bool) (device_template : DeviceTemplate) (p : value) (s : st) :
  device_template_dict !! templateName device_template = None ->
  payload_value device_template = Some p ->
  let r := mkChangeRecord (templateName device_template)
                          (dictdiffer_diff empty_dict p) in
  let out := body vm device_template_dict false update device_template s in
  out = add_device_template vm device_template
          (mkState (device_template_updates s ++ [r]) (events s))
  /\ device_template_updates out.2 = device_template_updates s ++ [r]
  /\ add_calls (events out.2) = add_calls (events s) ++ [device_template].
Proof.
  intros Hdict Hp r out.
  assert (Hout : out = add_device_template vm device_template
            (mkState (device_template_updates s ++ [r]) (events s))).
  { subst out r. unfold import_device_template, payload_value in *.
    rewrite Hdict.
    destruct (generalTemplates device_template);
      [|destruct (templateConfiguration device_template)];
      by simplify_eq. }
  split; [done|]. rewrite Hout.
  destruct (add_device_template_effect vm device_template
              (mkState (device_template_updates s ++ [r]) (events s)))
    as (res & evs & -> & Hevs).
  simpl. split; [done|].
  rewrite add_calls_app. simpl. by rewrite Hevs.
Qed.

(** The branch for an existing name, one template. *)
Lemma import_device_template_existing
    (vm : Remote) (device_template_dict : gmap string DeviceTemplate)
    (check_mode update : bool)
    (device_template existing_template : DeviceTemplate)
    (old new : value) (s : st) :
  device_template_dict !! templateName device_template
  = Some existing_template ->
  exactly_one_payload device_template = true ->
  spec_payloads existing_template device_template = Some (old, new) ->
  let d := dictdiffer_diff old new in
  let out := body vm device_template_dict check_mode update device_template s in
  device_template_updates out.2
  = device_template_updates s
    ++ (if bool_decide (d = []) then []
        else [mkChangeRecord (templateName device_template) d])
  /\ add_calls (events out.2)
     = add_calls (events s)
       ++ (if negb (bool_decide (d = [])) && negb check_mode && update
           then [device_template] else []).
Proof.
  intros Hdict Hone Hspec d out. subst out d.
  unfold import_device_template, exactly_one_payload, spec_payloads in *.
  rewrite Hdict.
  assert (Hbody :
    forall d0 : list DiffOp,
    let out := (let* d := ret d0 in
                if negb (bool_decide (d = [])) then
                  append_update
                    (mkChangeRecord (templateName device_template) d) ;;
                  if negb check_mode && update then
                    if negb check_mode
                    then add_device_template vm device_template
                    else ret tt
                  else ret tt
                else ret tt) s in
    device_template_updates out.2
    = device_template_updates s
      ++ (if bool_decide (d0 = []) then []
          else [mkChangeRecord (templateName device_template) d0])
    /\ add_calls (events out.2)
       = add_calls (events s)
         ++ (if negb (bool_decide (d0 = [])) && negb check_mode && update
             then [device_template] else [])).
  { intros d0. unfold bind, ret, append_update. simpl.
    destruct (bool_decide (d0 = [])); simpl.
    { by rewrite !app_nil_r. }
    destruct check_mode, update; simpl; try by rewrite app_nil_r.
    match goal with
    | |- context [add_device_template vm device_template ?s0] =>
        destruct (add_device_template_effect vm device_template s0)
          as (res & evs & -> & Hevs)
    end.
    simpl. split; [done|]. rewrite add_calls_app. simpl. by rewrite Hevs. }
  destruct (generalTemplates existing_template) as [gold|],
           (generalTemplates device_template) as [gnew|],
           (templateConfiguration existing_template) as [cold|],
           (templateConfiguration device_template) as [cnew|];
    try discriminate; injection Hspec as <- <-; apply Hbody.
Qed.

(** A template with neither payload makes the loop body raise in both
    branches, before anything is appended or submitted. *)
Lemma import_unknown_type vm device_template_dict check_mode update
    device_template (s : st) :
  generalTemplates device_template = None ->
  templateConfiguration device_template = None ->
  body vm device_template_dict check_mode update device_template s
  = (inl (Exception (unknown_type (templateName device_template))), s).
Proof.
  intros Hg Hc. unfold import_device_template. rewrite Hg, Hc.
  by destruct (device_template_dict !! templateName device_template).
Qed.

(** A loop over a list that holds such a template never completes. *)
Lemma for_each_unknown_type vm device_template_dict check_mode update
    device_template (l : list DeviceTemplate) :
  generalTemplates device_template = None ->
  templateConfiguration device_template = None ->
  device_template ∈ l ->
  forall s : st, exists e s',
    for_each (body vm device_template_dict check_mode update) l s
    = (inl e, s').
Proof.
  intros Hg Hc. induction l as [|x l IH]; intros Hin s.
  - by apply elem_of_nil in Hin.
  - simpl. unfold bind.
    destruct (body vm device_template_dict check_mode update x s)
      as [[e|[]] s'] eqn:Hx; [eauto|].
    apply elem_of_cons in Hin as [-> | Hin]; [|by apply IH].
    rewrite import_unknown_type in Hx by done. done.
Qed.

(** C5.  A desired template with neither [generalTemplates] nor
    [templateConfiguration] makes the loop body raise the unknown-type
    exception whether or not its name is in the catalog, leaving the state
    as it was (no record, no submission); the loop stops there, so the
    templates after it are not processed; and a call of
    [import_device_template_list] on a list that holds such a template
    returns no list. *)
Theorem import_unknown_type_aborts
    (vm : Remote) (device_template : DeviceTemplate)
    (check_mode update : bool) :
  generalTemplates device_template = None ->
  templateConfiguration device_template = None ->
  (forall device_template_dict (s : st),
     body vm device_template_dict check_mode update device_template s
     = (inl (Exception (unknown_type (templateName device_template))), s))
  /\ (forall device_template_dict before after (s s1 : st),
       for_each (body vm device_template_dict check_mode update) before s
       = (inr tt, s1) ->
       for_each (body vm device_template_dict check_mode update)
                (before ++ device_template :: after) s
       = (inl (Exception (unknown_type (templateName device_template))), s1))
  /\ (forall device_template_list (s : st),
       device_template ∈ device_template_list ->
       returned (import_device_template_list dictdiffer_diff vm
                   device_template_list check_mode update s) = None).
Proof.
  intros Hg Hc. split; [|split].
  - intros. by apply import_unknown_type.
  - intros dict before after s s1 Hbefore.
    rewrite for_each_app, Hbefore. simpl. unfold bind.
    by rewrite import_unknown_type.
  - intros l s Hin. unfold returned, import_device_template_list, bind.
    simpl.
    destruct (get_device_template_dict vm false [] _) as [[e|dict] s1];
      [done|].
    destruct (for_each_unknown_type vm dict check_mode update
                device_template l Hg Hc Hin s1) as (e & s' & ->).
    done.
Qed.

(** The loop body only adds: records to [device_template_updates], events
    to [events]. *)
Lemma import_device_template_extends vm device_template_dict check_mode update
    device_template (s : st) :
  exists us evs,
    (body vm device_template_dict check_mode update device_template s).2
    = mkState (device_template_updates s ++ us) (events s ++ evs).
Proof.
  assert (Hadd : forall us,
    exists us' evs,
      (add_device_template vm device_template
         (mkState (device_template_updates s ++ us) (events s))).2
      = mkState (device_template_updates s ++ us') (events s ++ evs)).
  { intros us.
    destruct (add_device_template_effect vm device_template
                (mkState (device_template_updates s ++ us) (events s)))
      as (res & evs & -> & _). simpl. eauto. }
  assert (Hsame : exists us evs,
    s = mkState (device_template_updates s ++ us) (events s ++ evs)).
  { exists [], []. rewrite !app_nil_r. by destruct s. }
  assert (Happ : forall us, exists us' evs,
    mkState (device_template_updates s ++ us) (events s)
    = mkState (device_template_updates s ++ us') (events s ++ evs)).
  { intros us. exists us, []. by rewrite app_nil_r. }
  unfold import_device_template, bind, ret, raise, append_update.
  destruct (device_template_dict !! templateName device_template)
    as [existing|];
    destruct (generalTemplates device_template) as [gts|];
    try destruct (generalTemplates existing);
    try destruct (templateConfiguration device_template);
    try destruct (templateConfiguration existing);
    simpl; try done;
    try destruct (bool_decide (_ = [])); simpl; try done;
    destruct check_mode, update; simpl; done.
Qed.

(** Check mode against a real run, one template: check mode leaves the
    events alone, and when the real run completes, check mode completes
    with the same records. *)
Lemma import_device_template_check_mode vm device_template_dict update update'
    device_template (s_run s_check : st) :
  device_template_updates s_run = device_template_updates s_check ->
  events (body vm device_template_dict true update' device_template
               s_check).2 = events s_check
  /\ forall s_run',
       body vm device_template_dict false update device_template s_run
       = (inr tt, s_run') ->
       exists s_check',
         body vm device_template_dict true update' device_template s_check
         = (inr tt, s_check')
         /\ device_template_updates s_run'
            = device_template_updates s_check'.
Proof.
  intros Hsame.
  assert (Hadd : forall us s_run',
    add_device_template vm device_template
      (mkState (device_template_updates s_run ++ us) (events s_run))
    = (inr tt, s_run') ->
    device_template_updates s_run' = device_template_updates s_check ++ us).
  { intros us s_run' H.
    destruct (add_device_template_effect vm device_template
                (mkState (device_template_updates s_run ++ us) (events s_run)))
      as (res & evs & Heq & _).
    rewrite Heq in H. injection H as _ <-. simpl. by rewrite Hsame. }
  unfold import_device_template, bind, ret, raise, append_update.
  destruct (device_template_dict !! templateName device_template)
    as [existing|];
    destruct (generalTemplates device_template) as [gts|];
    try destruct (generalTemplates existing);
    try destruct (templateConfiguration device_template);
    try destruct (templateConfiguration existing);
    simpl; try destruct (bool_decide (_ = [])); simpl;
    (split; [done|]); try done;
    try destruct update; simpl;
    intros s_run' H;
    try (injection H as <-; simpl; rewrite ?Hsame; by eauto);
    eexists; (split; [done|]); simpl; by apply Hadd.
Qed.

Lemma for_each_check_mode_events vm device_template_dict update
    (l : list DeviceTemplate) : forall s : st,
  events (for_each (body vm device_template_dict true update) l s).2
  = events s.
Proof.
  induction l as [|x l IH]; intros s; simpl; [done|]. unfold bind.
  destruct (import_device_template_check_mode vm device_template_dict
              update update x s s eq_refl) as [Hev _].
  destruct (body vm device_template_dict true update x s) as [[e|[]] s'];
    simpl in *; [done|]. by rewrite IH.
Qed.

Lemma for_each_check_mode vm device_template_dict update update'
    (l : list DeviceTemplate) : forall s_run s_check s_run' : st,
  device_template_updates s_run = device_template_updates s_check ->
  for_each (body vm device_template_dict false update) l s_run
  = (inr tt, s_run') ->
  exists s_check',
    for_each (body vm device_template_dict true update') l s_check
    = (inr tt, s_check')
    /\ device_template_updates s_run' = device_template_updates s_check'.
Proof.
  induction l as [|x l IH]; intros s_run s_check s_run' Hsame; simpl.
  - intros [= <-]. eauto.
  - unfold bind.
    destruct (import_device_template_check_mode vm device_template_dict
                update update' x s_run s_check Hsame) as [_ Hx].
    destruct (body vm device_template_dict false update x s_run)
      as [[e|[]] s1]; [done|].
    destruct (Hx s1 eq_refl) as (s2 & -> & Hsame'). by apply IH.
Qed.

(** C1.  With [check_mode = True] the import never enters
    [add_device_template] and posts no template, whatever [update] is; and
    whenever the call with [check_mode = False] on the same inputs returns
    a list, the check-mode call returns that same list. *)
Theorem import_check_mode_purity
    (vm : Remote) (device_template_list : list DeviceTemplate)
    (update : bool) (s : st) :
  let out := import_device_template_list dictdiffer_diff vm
               device_template_list true update s in
  add_calls (events out.2) = add_calls (events s)
  /\ submissions (events out.2) = submissions (events s)
  /\ forall update' l,
       returned (import_device_template_list dictdiffer_diff vm
                   device_template_list false update' s) = Some l ->
       returned out = Some l.
Proof.
  unfold returned, import_device_template_list, bind. simpl.
  destruct (reads_only_get_device_template_dict (DiffOp := DiffOp) vm false []
              (mkState [] (events s))) as (evs & Hs1 & Hevs).
  destruct (get_device_template_dict vm false []
              (mkState [] (events s) : st))
    as [[e|dict] s1]; simpl in Hs1; subst s1; simpl.
  { rewrite add_calls_app, submissions_app.
    rewrite (add_calls_reads evs), (submissions_reads evs) by done.
    by rewrite !app_nil_r. }
  pose proof (for_each_check_mode_events vm dict update device_template_list
                (mkState [] (events s ++ evs))) as Hev.
  assert (Hrun : forall update' s_run',
    for_each (body vm dict false update') device_template_list
             (mkState [] (events s ++ evs)) = (inr tt, s_run') ->
    exists s_check',
      for_each (body vm dict true update) device_template_list
               (mkState [] (events s ++ evs)) = (inr tt, s_check')
      /\ device_template_updates s_run' = device_template_updates s_check').
  { intros update' s_run'. by apply for_each_check_mode. }
  destruct (for_each (body vm dict true update) device_template_list
              (mkState [] (events s ++ evs))) as [[e|[]] s_check];
    simpl in *; rewrite Hev;
    rewrite add_calls_app, submissions_app;
    rewrite (add_calls_reads evs), (submissions_reads evs) by done;
    rewrite !app_nil_r; (split; [done|]); (split; [done|]);
    intros update' l;
    specialize (Hrun update');
    destruct (for_each (body vm dict false update') device_template_list
                (mkState [] (events s ++ evs))) as [[e'|[]] s_run];
    simpl; try done;
    destruct (Hrun s_run eq_refl) as (s_check' & Heq & Hsame);
    [done|]. injection Heq as <-. by rewrite Hsame.
Qed.

Lemma for_each_extends vm device_template_dict check_mode update
    (l : list DeviceTemplate) : forall s : st,
  exists us evs,
    (for_each (body vm device_template_dict check_mode update) l s).2
    = mkState (device_template_updates s ++ us) (events s ++ evs).
Proof.
  induction l as [|x l IH]; intros s; simpl.
  - exists [], []. rewrite !app_nil_r. by destruct s.
  - unfold bind.
    destruct (import_device_template_extends vm device_template_dict
                check_mode update x s) as (us & evs & Hx).
    destruct (body vm device_template_dict check_mode update x s)
      as [[e|[]] s1]; simpl in Hx; subst s1; [eauto|].
    destruct (IH (mkState (device_template_updates s ++ us)
                          (events s ++ evs))) as (us' & evs' & ->).
    simpl. exists (us ++ us'), (evs ++ evs'). by rewrite !app_assoc.
Qed.

(** In a loop that completes, the body completed on every element, and
    what it left in the state is still there at the end. *)
Lemma for_each_reaches vm device_template_dict check_mode update
    (l : list DeviceTemplate) x : forall s s' : st,
  x ∈ l ->
  for_each (body vm device_template_dict check_mode update) l s
  = (inr tt, s') ->
  exists s1 s2,
    body vm device_template_dict check_mode update x s1 = (inr tt, s2)
    /\ device_template_updates s2 `prefix_of` device_template_updates s'
    /\ add_calls (events s2) `prefix_of` add_calls (events s').
Proof.
  induction l as [|y l IH]; intros s s' Hin; [by apply elem_of_nil in Hin|].
  simpl. unfold bind.
  destruct (body vm device_template_dict check_mode update y s)
    as [[e|[]] s1] eqn:Hy; [done|].
  intros Hl. apply elem_of_cons in Hin as [-> | Hin]; [|by eapply IH].
  exists s, s1. split; [done|].
  destruct (for_each_extends vm device_template_dict check_mode update l s1)
    as (us & evs & Hext).
  rewrite Hl in Hext. simpl in Hext. subst s'. simpl.
  split; [by apply prefix_app_r|].
  rewrite add_calls_app. by apply prefix_app_r.
Qed.

(** A call that returns went through the fetch and the whole loop. *)
Lemma import_device_template_list_returns vm device_template_list
    check_mode update (s s' : st) l device_template_dict :
  (get_device_template_dict vm false [] (mkState [] (events s) : st)).1
  = inr device_template_dict ->
  import_device_template_list dictdiffer_diff vm device_template_list
    check_mode update s = (inr l, s') ->
  l = device_template_updates s'
  /\ exists s1,
       for_each (body vm device_template_dict check_mode update)
                device_template_list s1 = (inr tt, s').
Proof.
  unfold import_device_template_list, bind. simpl.
  destruct (get_device_template_dict vm false [] _) as [[e|dict] s1];
    simpl; [done|]. intros [= ->].
  destruct (for_each _ device_template_list s1) as [[e|[]] s2] eqn:Hl;
    [done|]. intros [= <- <-]. eauto.
Qed.

(** C2.  For a desired template whose name is not a key of the catalog and
    which carries a payload, the loop body run with [check_mode = False]
    appends the record whose diff is taken against the empty dictionary and
    enters [add_device_template] with the template, once, whatever [update]
    is; and when a call of [import_device_template_list] with
    [check_mode = False] on a list that holds the template returns, the
    returned list holds that record and the template was submitted. *)
Theorem import_absent_template_submitted
    (vm : Remote) (device_template_dict : gmap string DeviceTemplate)
    (update : bool) (device_template : DeviceTemplate) (p : value) :
  device_template_dict !! templateName device_template = None ->
  payload_value device_template = Some p ->
  let r := mkChangeRecord (templateName device_template)
                          (dictdiffer_diff empty_dict p) in
  (forall s : st,
     let out := body vm device_template_dict false update device_template s in
     device_template_updates out.2 = device_template_updates s ++ [r]
     /\ add_calls (events out.2) = add_calls (events s) ++ [device_template])
  /\ (forall device_template_list (s s' : st) l,
       (get_device_template_dict vm false [] (mkState [] (events s) : st)).1
       = inr device_template_dict ->
       device_template ∈ device_template_list ->
       import_device_template_list dictdiffer_diff vm device_template_list
         false update s = (inr l, s') ->
       r ∈ l /\ device_template ∈ add_calls (events s')).
Proof.
  intros Hdict Hp r. split.
  - intros s.
    by destruct (import_device_template_absent vm device_template_dict update
                   device_template p s Hdict Hp) as (_ & ? & ?).
  - intros l s s' res Hfetch Hin Hcall.
    destruct (import_device_template_list_returns _ _ _ _ _ _ _ _
                Hfetch Hcall) as (-> & s0 & Hloop).
    destruct (for_each_reaches _ _ _ _ _ _ _ _ Hin Hloop)
      as (s1 & s2 & Hbody & Hupd & Hcalls).
    destruct (import_device_template_absent vm device_template_dict update
                device_template p s1 Hdict Hp) as (_ & Hupd1 & Hcalls1).
    rewrite Hbody in Hupd1, Hcalls1. simpl in Hupd1, Hcalls1. split.
    + eapply elem_of_prefix; [|exact Hupd]. rewrite Hupd1.
      apply elem_of_app. right. apply list_elem_of_here.
    + eapply elem_of_prefix; [|exact Hcalls]. rewrite Hcalls1.
      apply elem_of_app. right. apply list_elem_of_here.
Qed.

(** C3.  For a desired template whose name is a key of the catalog, with
    the payloads the specification compares, the loop body appends a record
    exactly when the diff of the two payloads is not empty, and it enters
    [add_device_template] exactly when that diff is not empty,
    [check_mode] is false and [update] is true; and when a call of
    [import_device_template_list] on a list that holds the template
    returns, the returned list holds the record if the diff is not empty,
    and the template was submitted if moreover [check_mode] is false and
    [update] is true. *)
Theorem import_existing_template_compared
    (vm : Remote) (device_template_dict : gmap string DeviceTemplate)
    (check_mode update : bool)
    (device_template existing_template : DeviceTemplate)
    (old new : value) :
  device_template_dict !! templateName device_template
  = Some existing_template ->
  exactly_one_payload device_template = true ->
  spec_payloads existing_template device_template = Some (old, new) ->
  let d := dictdiffer_diff old new in
  let r := mkChangeRecord (templateName device_template) d in
  (forall s : st,
     let out :=
       body vm device_template_dict check_mode update device_template s in
     device_template_updates out.2
     = device_template_updates s ++ (if bool_decide (d = []) then [] else [r])
     /\ add_calls (events out.2)
        = add_calls (events s)
          ++ (if negb (bool_decide (d = [])) && negb check_mode && update
              then [device_template] else []))
  /\ (forall device_template_list (s s' : st) l,
       (get_device_template_dict vm false [] (mkState [] (events s) : st)).1
       = inr device_template_dict ->
       device_template ∈ device_template_list ->
       import_device_template_list dictdiffer_diff vm device_template_list
         check_mode update s = (inr l, s') ->
       d <> [] ->
       r ∈ l
       /\ (check_mode = false -> update = true ->
           device_template ∈ add_calls (events s'))).
Proof.
  intros Hdict Hone Hspec d r. split.
  - intros s. by eapply import_device_template_existing.
  - intros l s s' res Hfetch Hin Hcall Hd.
    destruct (import_device_template_list_returns _ _ _ _ _ _ _ _
                Hfetch Hcall) as (-> & s0 & Hloop).
    destruct (for_each_reaches _ _ _ _ _ _ _ _ Hin Hloop)
      as (s1 & s2 & Hbody & Hupd & Hcalls).
    destruct (import_device_template_existing vm device_template_dict
                check_mode update device_template existing_template old new
                s1 Hdict Hone Hspec) as (Hupd1 & Hcalls1).
    rewrite Hbody in Hupd1, Hcalls1. simpl in Hupd1, Hcalls1.
    fold d in Hupd1, Hcalls1.
    rewrite bool_decide_eq_false_2 in Hupd1, Hcalls1 by done. split.
    + eapply elem_of_prefix; [|exact Hupd]. rewrite Hupd1.
      apply elem_of_app. right. apply list_elem_of_here.
    + intros -> ->. eapply elem_of_prefix; [|exact Hcalls]. rewrite Hcalls1.
      apply elem_of_app. right. apply list_elem_of_here.
Qed.

(** C6, as the code has it.  When the loop has processed the templates
    before [device_template] and the body raises on it, the call raises
    that same exception and returns no list: the records accumulated so
    far stay in the local list, which the caller never receives.  What was
    done before stays done: the events, and so the submissions, of the
    earlier templates are still there. *)
Theorem import_failure_propagates
    (vm : Remote) (before after : list DeviceTemplate)
    (device_template : DeviceTemplate) (check_mode update : bool)
    (device_template_dict : gmap string DeviceTemplate) (e : exn)
    (s s1 s2 s3 : st) :
  get_device_template_dict vm false [] (mkState [] (events s))
  = (inr device_template_dict, s1) ->
  for_each (body vm device_template_dict check_mode update) before s1
  = (inr tt, s2) ->
  body vm device_template_dict check_mode update device_template s2
  = (inl e, s3) ->
  let out := import_device_template_list dictdiffer_diff vm
               (before ++ device_template :: after) check_mode update s in
  out = (inl e, s3)
  /\ returned out = None
  /\ device_template_updates s2 `prefix_of` device_template_updates s3
  /\ events s2 `prefix_of` events s3
  /\ submissions (events s2) `prefix_of` submissions (events s3).
Proof.
  intros Hdict Hbefore Hbody out.
  assert (Hout : out = (inl e, s3)).
  { subst out. unfold import_device_template_list, bind. simpl.
    rewrite Hdict, for_each_app, Hbefore. simpl. unfold bind.
    by rewrite Hbody. }
  split; [done|]. split; [by rewrite Hout|].
  destruct (import_device_template_extends vm device_template_dict
              check_mode update device_template s2) as (us & evs & Hext).
  rewrite Hbody in Hext. simpl in Hext. subst s3. simpl.
  split; [by apply prefix_app_r|]. split; [by apply prefix_app_r|].
  rewrite submissions_app. by apply prefix_app_r.
Qed.

End Import_loop.

(** ** The listing returns feature templates only *)

Section Listing.

Context {DiffOp : Type}.
Local Abbreviation st := (state (DiffOp := DiffOp)).

Lemma mapM_returns {A B} (f : A -> M st B) (P : B -> Prop) (l : list A) :
  (forall x s y s', f x s = (inr y, s') -> P y) ->
  forall s ys s', mapM f l s = (inr ys, s') -> Forall P ys.
Proof.
  intros Hf. induction l as [|x l IH]; intros s ys s'; simpl.
  - by intros [= <- _].
  - unfold bind. destruct (f x s) as [[e|y] s1] eqn:Hx; [done|].
    destruct (mapM f l s1) as [[e|ys'] s2] eqn:Hl; [done|].
    intros [= <- _]. constructor; eauto.
Qed.

(** Whatever the server holds, an element of the returned list carries
    [generalTemplates]: an object without it is never appended. *)
Lemma get_device_template_list_feature_only vm factory_default name_list
    (s : st) l :
  returned (get_device_template_list vm factory_default name_list s) = Some l ->
  Forall (fun t => is_Some (generalTemplates t)) l.
Proof.
  unfold returned, get_device_template_list, get_device_templates, bind, emit.
  simpl.
  match goal with
  | |- context [mapM ?f ?l0 ?s0] =>
      destruct (mapM f l0 s0) as [[e|items] s1] eqn:Hitems
  end; [done|].
  simpl. intros [= <-].
  eapply (mapM_returns _
            (fun o => forall t, o = Some t -> is_Some (generalTemplates t)))
    in Hitems.
  - induction Hitems as [|o items Ho _ IH]; simpl; [done|].
    destruct o as [t|]; simpl; [|done]. constructor; [by apply Ho | done].
  - clear. intros device s y s'.
    unfold get_device_template_list_item, get_device_template_object, bind,
      emit, ret. simpl.
    destruct (_ && _); [by intros [= <- _]|].
    destruct (rem_device_objects vm !! ds_templateId device) as [obj|];
      [|by intros [= <- _]].
    destruct (_ && _); [by intros [= <- _]|].
    destruct (so_generalTemplates obj); [|by intros [= <- _]].
    destruct (generalTemplates_to_name _ _ _) as [[e|gts] s1]; [done|].
    destruct (get_template_attachments _ _ _ _) as [[e|att] s2]; [done|].
    destruct (get_template_input _ _ _) as [[e|inp] s3]; [done|].
    intros [= <- _] t [= <-]. simpl. eauto.
Qed.

End Listing.

(** * The theorems at sample inputs *)

(** C8, what the code does.  The server holds the file template [F1], not
    a factory default; the catalog the import fetches does not hold it, so
    importing [F1] unchanged takes the branch for a new name: a record with
    a diff against the empty dictionary, and a second creation of [F1]. *)
Theorem file_template_created_again :
  (get_device_template_dict remote_file false [] state_0).1 = inr ∅
  /\ returned (import_device_template_list change_diff remote_file
                 [template_F1] false false state_0)
     = Some [mkChangeRecord "F1"
               [change empty_dict (text "hostname r1")]]
  /\ add_calls (events (import_device_template_list change_diff remote_file
                          [template_F1] false false state_0).2)
     = [template_F1].
Proof. by vm_compute. Qed.

(** C1 as stated fails: the desired template names a leaf the catalog does
    not hold; check mode returns a list, the real call raises in
    [add_device_template] and returns none. *)
Lemma import_check_mode_differs :
  returned (import_device_template_list change_diff remote_empty
              [template_unknown_leaf] true false state_0)
  = Some [mkChangeRecord "T9"
            [change empty_dict
               (templates [mkGeneralTemplate (Some "leaf-X") "cisco_leaf"
                             None])]]
  /\ (import_device_template_list change_diff remote_empty
        [template_unknown_leaf] false false state_0).1
     = inl (AttributeError "fail_json")
  /\ returned (import_device_template_list change_diff remote_empty
                 [template_unknown_leaf] true false state_0)
     <> returned (import_device_template_list change_diff remote_empty
                    [template_unknown_leaf] false false state_0).
Proof. by vm_compute. Qed.

Lemma import_check_mode_purity_witness :
  returned (import_device_template_list change_diff remote_feature
              [template_T1; template_F1] false true state_0)
  = Some [mkChangeRecord "T1"
            (change_diff
               (templates [mkGeneralTemplate (Some "leaf-A") "cisco_leaf"
                             None])
               (templates nodes_known));
          mkChangeRecord "F1" (change_diff empty_dict (text "hostname r1"))]
  /\ returned (import_device_template_list change_diff remote_feature
                 [template_T1; template_F1] true true state_0)
     = Some [mkChangeRecord "T1"
               (change_diff
                  (templates [mkGeneralTemplate (Some "leaf-A") "cisco_leaf"
                                None])
                  (templates nodes_known));
             mkChangeRecord "F1" (change_diff empty_dict (text "hostname r1"))]
  /\ add_calls (events (import_device_template_list change_diff remote_feature
                          [template_T1; template_F1] true true state_0).2)
     = [].
Proof.
  assert (Hrun :
    returned (import_device_template_list change_diff remote_feature
                [template_T1; template_F1] false true state_0)
    = Some [mkChangeRecord "T1"
              (change_diff
                 (templates [mkGeneralTemplate (Some "leaf-A") "cisco_leaf"
                               None])
                 (templates nodes_known));
            mkChangeRecord "F1" (change_diff empty_dict (text "hostname r1"))])
    by (vm_compute; reflexivity).
  destruct (import_check_mode_purity change_diff remote_feature
              [template_T1; template_F1] true state_0) as (Hcalls & _ & Hsame).
  split; [exact Hrun|]. split; [exact (Hsame true _ Hrun) | exact Hcalls].
Defined.

Lemma import_absent_template_submitted_witness :
  (∅ : gmap string DeviceTemplate) !! "F1" = None
  /\ payload_value template_F1 = Some (text "hostname r1")
  /\ add_calls (events (import_device_template change_diff remote_empty ∅
                          false false template_F1 state_0).2)
     = [template_F1]
  /\ device_template_updates
       (import_device_template change_diff remote_empty ∅
          false false template_F1 state_0).2
     = [mkChangeRecord "F1" (change_diff empty_dict (text "hostname r1"))]
  /\ template_F1
     ∈ add_calls (events (import_device_template_list change_diff remote_empty
                            [template_F2; template_F1] false false state_0).2).
Proof.
  assert (H1 : (∅ : gmap string DeviceTemplate) !! templateName template_F1
               = None) by reflexivity.
  assert (H2 : payload_value template_F1 = Some (text "hostname r1"))
    by reflexivity.
  destruct (import_absent_template_submitted change_diff remote_empty ∅ false
              template_F1 (text "hostname r1") H1 H2) as (Hbody & Hcall).
  destruct (Hbody state_0) as (Hupd & Hcalls).
  split; [exact H1|]. split; [exact H2|]. split; [exact Hcalls|].
  split; [exact Hupd|].
  eassert (Hrun :
    import_device_template_list change_diff remote_empty
      [template_F2; template_F1] false false state_0 = (inr _, _))
    by reflexivity.
  rewrite Hrun.
  refine (proj2 (Hcall [template_F2; template_F1] state_0 _ _ eq_refl _ Hrun)).
  apply list_elem_of_further, list_elem_of_here.
Defined.

Lemma import_existing_template_compared_witness :
  ({[ "T1" := existing_T1 ]} : gmap string DeviceTemplate) !! "T1"
  = Some existing_T1
  /\ exactly_one_payload template_T1 = true
  /\ add_calls (events (import_device_template change_diff remote_feature
                          {[ "T1" := existing_T1 ]} false true template_T1
                          state_0).2)
     = [template_T1]
  /\ add_calls (events (import_device_template change_diff remote_feature
                          {[ "T1" := existing_T1 ]} false false template_T1
                          state_0).2)
     = []
  /\ template_T1
     ∈ add_calls (events (import_device_template_list change_diff
                            remote_feature [template_F1; template_T1]
                            false true state_0).2).
Proof.
  assert (H1 : ({[ "T1" := existing_T1 ]} : gmap string DeviceTemplate)
               !! templateName template_T1 = Some existing_T1)
    by reflexivity.
  assert (H2 : exactly_one_payload template_T1 = true) by reflexivity.
  assert (H3 : spec_payloads existing_T1 template_T1
               = Some (templates [mkGeneralTemplate (Some "leaf-A")
                                    "cisco_leaf" None],
                       templates nodes_known)) by reflexivity.
  split; [exact H1|]. split; [exact H2|]. split; [|split].
  - exact (proj2 (proj1 (import_existing_template_compared change_diff
                           remote_feature _ false true _ _ _ _ H1 H2 H3)
                        state_0)).
  - exact (proj2 (proj1 (import_existing_template_compared change_diff
                           remote_feature _ false false _ _ _ _ H1 H2 H3)
                        state_0)).
  - eassert (Hrun :
      import_device_template_list change_diff remote_feature
        [template_F1; template_T1] false true state_0 = (inr _, _))
      by reflexivity.
    rewrite Hrun.
    refine (proj2 (proj2 (import_existing_template_compared change_diff
                            remote_feature _ false true _ _ _ _ H1 H2 H3)
                         [template_F1; template_T1] state_0 _ _ _ _ Hrun _)
                  eq_refl eq_refl).
    + by vm_compute.
    + apply list_elem_of_further, list_elem_of_here.
    + discriminate.
Defined.

(** C4, what the code does.  The second node has a sub-template the
    catalog does not hold, every other name resolves.  The call raises and
    returns no sequence, so nothing partial gets out; but the exception is
    the failed lookup of [self.fail_json], an attribute the class does not
    have: no unknown-template error is raised and the name [sub-X] is not
    reported.  The same holds for an unknown name at the top level. *)
Theorem generalTemplates_to_id_unknown_name :
  generalTemplates_to_id remote_empty nodes_unknown state_0
  = (inl (AttributeError "fail_json"), state_0)
  /\ returned (generalTemplates_to_id remote_empty nodes_unknown state_0)
     = None
  /\ generalTemplates_to_id remote_empty
       [mkGeneralTemplate (Some "leaf-X") "cisco_leaf" None] state_0
     = (inl (AttributeError "fail_json"), state_0).
Proof. by vm_compute. Qed.

Lemma import_unknown_type_aborts_witness :
  generalTemplates template_bad = None
  /\ templateConfiguration template_bad = None
  /\ returned (import_device_template_list change_diff remote_empty
                 [template_F1; template_bad; template_F2] false false state_0)
     = None.
Proof.
  split; [reflexivity|]. split; [reflexivity|].
  apply (import_unknown_type_aborts change_diff remote_empty template_bad
           false false eq_refl eq_refl).
  apply list_elem_of_further, list_elem_of_here.
Defined.

(** C6 as stated fails: the import of [F1], then a template of unknown
    type, then [F2] raises on the second; a record was accumulated for
    [F1] and [F1] was submitted, but the call returns no list, so no list
    holds that record. *)
Lemma import_failure_returns_no_list :
  let out := import_device_template_list change_diff remote_empty
               [template_F1; template_bad; template_F2] false false state_0 in
  out.1 = inl (Exception "Template B is of unknown type")
  /\ device_template_updates out.2
     = [mkChangeRecord "F1" [change empty_dict (text "hostname r1")]]
  /\ add_calls (events out.2) = [template_F1]
  /\ ~ exists l, returned out = Some l
                 /\ mkChangeRecord "F1" [change empty_dict (text "hostname r1")]
                    ∈ l.
Proof.
  repeat split; try by vm_compute.
  intros (l & Hl & _). by vm_compute in Hl.
Qed.

Lemma import_failure_propagates_witness :
  exists s3,
    import_device_template_list change_diff remote_empty
      [template_F1; template_bad; template_F2] false false state_0
    = (inl (Exception "Template B is of unknown type"), s3)
    /\ submissions (events s3)
       = [mkPayload "F1" "cli" "vedge-cloud" false "file" "" []
                    (Some "hostname r1") None].
Proof.
  eassert (Hdict :
    get_device_template_dict remote_empty false []
      (mkState [] (events state_0))
    = (inr (∅ : gmap string DeviceTemplate), _)) by reflexivity.
  eassert (Hbefore :
    for_each (import_device_template change_diff remote_empty ∅ false false)
             [template_F1] _
    = (inr tt, _)) by reflexivity.
  eassert (Hbody :
    import_device_template change_diff remote_empty ∅ false false
      template_bad _
    = (inl (Exception "Template B is of unknown type"), _)) by reflexivity.
  destruct (import_failure_propagates change_diff remote_empty
              [template_F1] [template_F2] template_bad false false _ _ _ _ _ _
              Hdict Hbefore Hbody) as (Hout & _).
  eexists. split; [exact Hout | reflexivity].
Defined.

Lemma generalTemplates_round_trip_witness :
  id_names_one_template (rem_feature_templates remote_empty)
  /\ forallb (resolvable
                (get_feature_template_dict remote_empty true ft_templateName))
             nodes_known = true
  /\ exists ids,
       generalTemplates_to_id remote_empty nodes_known state_0
       = (inr ids, state_0)
       /\ generalTemplates_to_name
            (get_feature_template_dict remote_empty true ft_templateId)
            ids state_0
          = (inr nodes_known, state_0).
Proof.
  assert (H1 : id_names_one_template (rem_feature_templates remote_empty)).
  { intros a b Ha Hb. simpl in Ha, Hb. unfold sample_feature_templates in *.
    repeat (apply elem_of_cons in Ha as [-> | Ha]);
      try (by apply elem_of_nil in Ha);
      repeat (apply elem_of_cons in Hb as [-> | Hb]);
      try (by apply elem_of_nil in Hb);
      simpl; intros H; try reflexivity; discriminate H. }
  assert (H2 : forallb (resolvable
                 (get_feature_template_dict remote_empty true ft_templateName))
                 nodes_known = true) by reflexivity.
  split; [exact H1|]. split; [exact H2|].
  destruct (generalTemplates_round_trip remote_empty nodes_known state_0 H1 H2)
    as (ids & Hids & Hback).
  exists ids. split; [exact Hids | exact (Hback state_0)].
Defined.

Lemma get_template_input_editable_columns_witness :
  resp_json (rem_input remote_feature "dt-1")
  = Some (json_dict (Some (mkHeader (Some sample_columns))))
  /\ returned (get_template_input remote_feature "dt-1" state_0)
     = Some (mkInputSchema
               [ mkInputEntry "Hostname (hostname)" "//system/host-name"
                              (Some "hostname");
                 mkInputEntry "Description" "//system/description" None ]).
Proof.
  split; [reflexivity|].
  exact (proj1 (get_template_input_editable_columns remote_feature "dt-1"
                  (mkHeader (Some sample_columns)) sample_columns state_0
                  eq_refl eq_refl)).
Defined.

Lemma get_template_input_default_witness :
  resp_json (rem_input remote_feature "dt-2")
  = Some (json_dict (Some (mkHeader None)))
  /\ resp_json (rem_input remote_feature "dt-3") = Some json_falsy
  /\ returned (get_template_input remote_feature "dt-2" state_0)
     = Some (mkInputSchema [])
  /\ returned (get_template_input remote_feature "dt-3" state_0)
     = Some (mkInputSchema []).
Proof.
  split; [reflexivity|]. split; [reflexivity|]. split.
  - unfold returned.
    rewrite (get_template_input_default remote_feature "dt-2" state_0).
    + reflexivity.
    + right. right. exists (mkHeader None). split; reflexivity.
  - unfold returned.
    rewrite (get_template_input_default remote_feature "dt-3" state_0).
    + reflexivity.
    + left. reflexivity.
Defined.

(** * Further properties *)

(** ** Loops in general *)

Section Loops.

Context {S : Type}.

Lemma stateless_ret {A} (a : A) : stateless (ret (S := S) a).
Proof. by exists (inr a). Qed.

Lemma stateless_raise {A} (e : exn) : stateless (raise (S := S) (A := A) e).
Proof. by exists (inl e). Qed.

Lemma stateless_bind {A B} (c : M S A) (k : A -> M S B) :
  stateless c -> (forall a, stateless (k a)) -> stateless (bind c k).
Proof.
  intros [[e|a] Hc] Hk.
  - exists (inl e). intros s. unfold bind. by rewrite Hc.
  - destruct (Hk a) as [r Hr]. exists r. intros s. unfold bind.
    by rewrite Hc, Hr.
Qed.

Lemma stateless_mapM {A B} (f : A -> M S B) (l : list A) :
  (forall x, stateless (f x)) -> stateless (mapM f l).
Proof.
  intros Hf. induction l as [|x l IH]; simpl; [apply stateless_ret|].
  apply stateless_bind; [done|]. intros y.
  apply stateless_bind; [done|]. intros ys. apply stateless_ret.
Qed.

Lemma mapM_app {A B} (f : A -> M S B) (l1 l2 : list A) (s : S) :
  mapM f (l1 ++ l2) s
  = match mapM f l1 s with
    | (inl e, s') => (inl e, s')
    | (inr ys, s') =>
        match mapM f l2 s' with
        | (inl e, s'') => (inl e, s'')
        | (inr zs, s'') => (inr (ys ++ zs), s'')
        end
    end.
Proof.
  revert s. induction l1 as [|x l1 IH]; intros s; simpl.
  - unfold ret. by destruct (mapM f l2 s) as [[e|zs] s'].
  - unfold bind. destruct (f x s) as [[e|y] s1]; [done|].
    rewrite IH. destruct (mapM f l1 s1) as [[e|ys] s2]; [done|].
    unfold ret. by destruct (mapM f l2 s2) as [[e|zs] s3].
Qed.

Lemma for_each_ext {A} (f g : A -> M S unit) (l : list A) :
  (forall x s, f x s = g x s) -> forall s, for_each f l s = for_each g l s.
Proof.
  intros Hfg. induction l as [|x l IH]; intros s; simpl; [done|].
  unfold bind. rewrite Hfg. destruct (g x s) as [[e|[]] s']; [done|]. apply IH.
Qed.

End Loops.

(** ** Name resolution, further *)

Section Resolution_further.

Context {DiffOp : Type}.
Local Abbreviation st := (state (DiffOp := DiffOp)).

Variable feature_templates : gmap string FeatureTemplate.

Lemma sub_templates_to_id_resolved (subs : list SubTemplate) :
  forall ids (s s' : st),
  mapM (sub_template_to_id feature_templates) subs s = (inr ids, s') ->
  Forall2 (sub_resolved feature_templates) subs ids.
Proof.
  induction subs as [|sub subs IH]; intros ids s s'; simpl.
  - intros [= <- _]. constructor.
  - unfold bind at 1, sub_template_to_id at 1.
    destruct (feature_templates !! st_templateName sub) as [ft|] eqn:Hft;
      [|done].
    simpl. unfold bind.
    destruct (mapM (sub_template_to_id feature_templates) subs s)
      as [[e|ids'] s1] eqn:Hrun; [done|].
    intros [= <- _]. constructor; [by exists ft | by eapply IH].
Qed.

Lemma template_to_id_resolved (t : GeneralTemplate) i (s s' : st) :
  template_to_id feature_templates t s = (inr i, s') ->
  node_resolved feature_templates t i.
Proof.
  unfold template_to_id, node_resolved.
  destruct (gt_templateName t) as [n|]; [|done].
  destruct (feature_templates !! n) as [ft|] eqn:Hft; [|done].
  destruct (gt_subTemplates t) as [subs|].
  - unfold bind.
    destruct (mapM (sub_template_to_id feature_templates) subs s)
      as [[e|ids] s1] eqn:Hrun; [done|].
    intros [= <- _]. exists n, ft. simpl.
    repeat (split; [done|]). by eapply sub_templates_to_id_resolved.
  - intros [= <- _]. by exists n, ft.
Qed.

Lemma templates_to_id_resolved (gts : list GeneralTemplate) :
  forall ids (s s' : st),
  mapM (template_to_id feature_templates) gts s = (inr ids, s') ->
  Forall2 (node_resolved feature_templates) gts ids.
Proof.
  induction gts as [|t gts IH]; intros ids s s'; simpl.
  - intros [= <- _]. constructor.
  - unfold bind.
    destruct (template_to_id feature_templates t s) as [[e|i] s1] eqn:Ht;
      [done|].
    destruct (mapM (template_to_id feature_templates) gts s1)
      as [[e|ids'] s2] eqn:Hrun; [done|].
    intros [= <- _].
    constructor; [by eapply template_to_id_resolved | by eapply IH].
Qed.

(** The loop up to the first node that does not resolve. *)
Lemma templates_to_id_stops (before after : list GeneralTemplate)
    (t : GeneralTemplate) (e : exn) (s : st) :
  forallb (resolvable feature_templates) before = true ->
  (forall s0 : st, template_to_id feature_templates t s0 = (inl e, s0)) ->
  mapM (template_to_id feature_templates) (before ++ t :: after) s
  = (inl e, s).
Proof.
  intros Hbefore Ht. rewrite mapM_app.
  destruct (templates_to_id_outcome feature_templates before s)
    as (r & -> & Hok & _).
  destruct (Hok Hbefore) as (ids & ->). simpl. unfold bind. by rewrite Ht.
Qed.

End Resolution_further.

Section Resolution_theorems.

Context {DiffOp : Type}.
Local Abbreviation st := (state (DiffOp := DiffOp)).

(** X1.  A sequence [generalTemplates_to_id] returns answers the input
    node for node: same length and order, at each place the id the catalog
    holds under the node's name and the node's type, and the same for the
    sub-templates; a node has [subTemplates] in the output exactly when it
    has them in the input. *)
Theorem generalTemplates_to_id_faithful
    (vm : Remote) (generalTemplates : list GeneralTemplate)
    (ids : list GeneralTemplateId) (s : st) :
  returned (generalTemplates_to_id vm generalTemplates s) = Some ids ->
  Forall2 (node_resolved (get_feature_template_dict vm true ft_templateName))
          generalTemplates ids.
Proof.
  unfold returned, generalTemplates_to_id.
  destruct (mapM _ generalTemplates s) as [[e|ids'] s'] eqn:Hrun; [done|].
  simpl. intros [= <-]. by eapply templates_to_id_resolved.
Qed.

(** X2.  The first node that does not resolve decides the exception of
    [generalTemplates_to_id]: a node without ['templateName'] raises on
    the lookup of [self.result]; a node whose name the catalog does not
    hold, or whose name is known but which has an unknown sub-template,
    raises on the lookup of [self.fail_json].  Either way the exception
    is an [AttributeError] that does not tell the name, and the nodes
    after it play no part. *)
Theorem generalTemplates_to_id_first_failure
    (vm : Remote) (before after : list GeneralTemplate)
    (template : GeneralTemplate) (s : st) :
  let feature_templates := get_feature_template_dict vm true ft_templateName in
  let run := generalTemplates_to_id vm (before ++ template :: after) s in
  forallb (resolvable feature_templates) before = true ->
  (gt_templateName template = None ->
   run = (inl (AttributeError "result"), s))
  /\ (forall n,
        gt_templateName template = Some n ->
        feature_templates !! n = None ->
        run = (inl (AttributeError "fail_json"), s))
  /\ (forall n known sub rest,
        gt_templateName template = Some n ->
        is_Some (feature_templates !! n) ->
        gt_subTemplates template = Some (known ++ sub :: rest) ->
        forallb (fun sub => bool_decide
                   (is_Some (feature_templates !! st_templateName sub)))
                known = true ->
        feature_templates !! st_templateName sub = None ->
        run = (inl (AttributeError "fail_json"), s)).
Proof.
  intros feature_templates run Hbefore. subst run.
  unfold generalTemplates_to_id. fold feature_templates.
  split; [|split].
  - intros Hname. apply templates_to_id_stops; [done|].
    intros s0. unfold template_to_id. by rewrite Hname.
  - intros n Hname Hn. apply templates_to_id_stops; [done|].
    intros s0. unfold template_to_id. by rewrite Hname, Hn.
  - intros n known sub rest Hname [ft Hft] Hsubs Hknown Hsub.
    apply templates_to_id_stops; [done|].
    intros s0. unfold template_to_id. rewrite Hname, Hft, Hsubs.
    unfold bind. rewrite mapM_app.
    destruct (sub_templates_to_id_outcome feature_templates known s0)
      as (r & -> & Hok & _).
    destruct (Hok Hknown) as (ids & ->). simpl. unfold bind.
    unfold sub_template_to_id at 1. by rewrite Hsub.
Qed.

End Resolution_theorems.

(** ** Submission, further *)

Section Submission.

Context {DiffOp : Type}.
Local Abbreviation st := (state (DiffOp := DiffOp)).

(** What [add_device_template] does, case by case. *)
Lemma add_device_template_outcome vm t (s : st) :
  let after evs := mkState (device_template_updates s)
                     (events s ++ Call_add_device_template t :: evs) in
  match templateDescription t, deviceType t, factoryDefault t,
        configType t with
  | None, _, _, _ =>
      add_device_template vm t s
      = (inl (KeyError "templateDescription"), after [])
  | Some _, None, _, _ =>
      add_device_template vm t s = (inl (KeyError "deviceType"), after [])
  | Some _, Some _, None, _ =>
      add_device_template vm t s = (inl (KeyError "factoryDefault"), after [])
  | Some _, Some _, Some _, None =>
      add_device_template vm t s = (inl (KeyError "configType"), after [])
  | Some description, Some device_type, Some factory_default,
    Some config_type =>
      let payload := mkPayload (templateName t) description device_type
                       factory_default config_type "" [] in
      if String.eqb config_type "file" then
        match templateConfiguration t with
        | Some cfg =>
            add_device_template vm t s
            = (inr tt, after [Request "POST" "template/device/cli"
                                (template_payload (payload (Some cfg) None))])
        | None =>
            add_device_template vm t s
            = (inl (KeyError "templateConfiguration"), after [])
        end
      else
        match generalTemplates t with
        | Some gts =>
            (forallb (resolvable
                        (get_feature_template_dict vm true ft_templateName))
                     gts = true
             /\ exists ids,
                  add_device_template vm t s
                  = (inr tt, after [Request "POST" "template/device/feature"
                                      (template_payload
                                         (payload None (Some ids)))]))
            \/ (forallb (resolvable
                           (get_feature_template_dict vm true ft_templateName))
                        gts = false
                /\ exists e, add_device_template vm t s = (inl e, after []))
        | None =>
            add_device_template vm t s
            = (inl (TypeError "Exception() takes no keyword arguments"),
               after [])
        end
  end.
Proof.
  intros after. subst after.
  unfold add_device_template, required, bind, emit. simpl.
  destruct (templateDescription t); simpl; [|done].
  destruct (deviceType t); simpl; [|done].
  destruct (factoryDefault t); simpl; [|done].
  destruct (configType t) as [config_type|]; simpl; [|done].
  destruct (String.eqb config_type "file").
  - destruct (templateConfiguration t); simpl; [|done].
    by rewrite <- app_assoc.
  - destruct (generalTemplates t) as [gts|]; simpl; [|done].
    unfold generalTemplates_to_id.
    match goal with
    | |- context [mapM ?f gts ?s0] =>
        destruct (templates_to_id_outcome
                    (get_feature_template_dict vm true ft_templateName)
                    gts s0) as (r & -> & Hok & Hko)
    end.
    destruct (forallb _ gts).
    + left. split; [done|]. destruct (Hok eq_refl) as (ids & ->). simpl.
      exists ids. by rewrite <- app_assoc.
    + right. split; [done|]. destruct (Hko eq_refl) as (e & -> & _). eauto.
Qed.

(** A call that raises right after it was recorded leaves the record of
    the call and nothing else. *)
Local Ltac raises_after_call H :=
  rewrite H; simpl; rewrite add_calls_app, submissions_app; simpl;
  rewrite ?app_nil_r; repeat (split; [done|]).

(** X3.  [add_device_template] leaves the local list of the import alone
    and records its call once; it posts exactly one payload when it
    returns and none when it raises.  The payload copies the name, the
    description, the device type, the factory-default flag and the
    configuration type of the template, and has an empty [policyId] and an
    empty [featureTemplateUidRange].  It carries exactly one of the two
    bodies: the template's configuration text and no template list when
    the type is ["file"], a template list and no configuration text
    otherwise, even for a template that carries both. *)
Theorem add_device_template_posts_once
    (vm : Remote) (device_template : DeviceTemplate) (s : st) :
  let out := add_device_template vm device_template s in
  device_template_updates out.2 = device_template_updates s
  /\ add_calls (events out.2) = add_calls (events s) ++ [device_template]
  /\ (forall e, out.1 = inl e ->
      submissions (events out.2) = submissions (events s))
  /\ (out.1 = inr tt ->
      exists p,
        submissions (events out.2) = submissions (events s) ++ [p]
        /\ p_templateName p = templateName device_template
        /\ templateDescription device_template
           = Some (p_templateDescription p)
        /\ deviceType device_template = Some (p_deviceType p)
        /\ factoryDefault device_template = Some (p_factoryDefault p)
        /\ configType device_template = Some (p_configType p)
        /\ p_policyId p = EmptyString
        /\ p_featureTemplateUidRange p = []
        /\ ((p_configType p = "file"
             /\ is_Some (p_templateConfiguration p)
             /\ p_templateConfiguration p
                = templateConfiguration device_template
             /\ p_generalTemplates p = None)
            \/ (p_configType p <> "file"
                /\ p_templateConfiguration p = None
                /\ is_Some (p_generalTemplates p)))).
Proof.
  intros out. subst out.
  pose proof (add_device_template_outcome vm device_template s) as H.
  simpl in H.
  destruct (templateDescription device_template) as [description|];
    [|by raises_after_call H].
  destruct (deviceType device_template) as [device_type|];
    [|by raises_after_call H].
  destruct (factoryDefault device_template) as [factory_default|];
    [|by raises_after_call H].
  destruct (configType device_template) as [config_type|];
    [|by raises_after_call H].
  destruct (String.eqb_spec config_type "file") as [Hf|Hf].
  - destruct (templateConfiguration device_template) as [cfg|];
      [|by raises_after_call H].
    rewrite H. simpl. rewrite add_calls_app, submissions_app. simpl.
    repeat (split; [done|]).
    intros _. eexists. split; [done|]. simpl. repeat (split; [done|]).
    left. eauto.
  - destruct (generalTemplates device_template) as [gts|];
      [|by raises_after_call H].
    destruct H as [(_ & ids & H) | (_ & e & H)]; [|by raises_after_call H].
    rewrite H. simpl. rewrite add_calls_app, submissions_app. simpl.
    repeat (split; [done|]).
    intros _. eexists. split; [done|]. simpl. repeat (split; [done|]).
    right. eauto.
Qed.


End Submission.

(** ** The import, further *)

Section Import_further.

Context {DiffOp : Type}.
Variable dictdiffer_diff : value -> value -> list DiffOp.
Local Abbreviation st := (state (DiffOp := DiffOp)).
Local Abbreviation body := (import_device_template dictdiffer_diff).

(** One turn of the loop, whatever the state: it raises at once, or it
    appends at most one record, which bears the name of the template, and
    then submits the template or not.  It submits only outside check mode;
    a template whose name is new is then always submitted, a template
    whose name exists only if [update] is set. *)
Lemma import_device_template_plan vm device_template_dict check_mode update
    device_template :
  (exists e, forall s : st,
     body vm device_template_dict check_mode update device_template s
     = (inl e, s))
  \/ (exists us submit,
        (forall s : st,
           body vm device_template_dict check_mode update device_template s
           = if submit : bool
             then add_device_template vm device_template
                    (mkState (device_template_updates s ++ us) (events s))
             else (inr tt,
                   mkState (device_template_updates s ++ us) (events s)))
        /\ (us = []
            \/ exists d, us = [mkChangeRecord (templateName device_template) d])
        /\ (submit = true -> check_mode = false)
        /\ (submit = true -> update = false ->
            absent device_template_dict device_template = true)
        /\ (check_mode = false ->
            absent device_template_dict device_template = true ->
            submit = true)).
Proof.
  unfold import_device_template, absent, bind, ret, raise, append_update.
  destruct (device_template_dict !! templateName device_template)
    as [existing|];
    destruct (generalTemplates device_template) as [gts|];
    try destruct (generalTemplates existing);
    try destruct (templateConfiguration device_template);
    try destruct (templateConfiguration existing);
    simpl; try (left; eexists; intros; reflexivity);
    try destruct (bool_decide (_ = [])); simpl;
    destruct check_mode, update; simpl; right;
    first
      [ exists [], false;
        split; [intros []; simpl; by rewrite app_nil_r|];
        split; [by left|]; done
      | eexists [_], false;
        split; [intros ?; reflexivity|];
        split; [right; eexists; reflexivity|]; done
      | eexists [_], true;
        split; [intros ?; reflexivity|];
        split; [right; eexists; reflexivity|]; done ].
Qed.

Lemma add_device_template_writes vm t (s : st) :
  exists r w,
    add_device_template vm t s
    = (r, mkState (device_template_updates s) (events s ++ w))
    /\ forallb (fun ev => negb (is_read ev)) w = true
    /\ add_calls w = [t].
Proof.
  pose proof (add_device_template_outcome vm t s) as H. simpl in H.
  destruct (templateDescription t); [|rewrite H; by eexists _, _].
  destruct (deviceType t); [|rewrite H; by eexists _, _].
  destruct (factoryDefault t); [|rewrite H; by eexists _, _].
  destruct (configType t) as [config_type|]; [|rewrite H; by eexists _, _].
  destruct (String.eqb config_type "file").
  - destruct (templateConfiguration t); rewrite H; by eexists _, _.
  - destruct (generalTemplates t).
    + destruct H as [(_ & ids & ->) | (_ & e & ->)]; by eexists _, _.
    + rewrite H. by eexists _, _.
Qed.

Lemma add_device_template_returns_anywhere vm t (s s' : st) :
  (add_device_template vm t s).1 = inr tt ->
  (add_device_template vm t s').1 = inr tt.
Proof.
  pose proof (add_device_template_outcome vm t s) as H.
  pose proof (add_device_template_outcome vm t s') as H'.
  simpl in H, H'.
  destruct (templateDescription t); [|by rewrite H].
  destruct (deviceType t); [|by rewrite H].
  destruct (factoryDefault t); [|by rewrite H].
  destruct (configType t) as [config_type|]; [|by rewrite H].
  destruct (String.eqb config_type "file").
  - destruct (templateConfiguration t); rewrite H, H'; done.
  - destruct (generalTemplates t); [|by rewrite H].
    destruct H as [(Hall & ids & ->) | (Hall & e & ->)]; [|done].
    destruct H' as [(_ & ids' & ->) | (Hall' & _)]; [done | congruence].
Qed.

(** What a loop leaves in the state, whether it completes or not. *)
Lemma for_each_trace vm device_template_dict check_mode update
    (l : list DeviceTemplate) : forall s : st,
  exists us w,
    (for_each (body vm device_template_dict check_mode update) l s).2
    = mkState (device_template_updates s ++ us) (events s ++ w)
    /\ map name us `sublist_of` map templateName l
    /\ forallb (fun ev => negb (is_read ev)) w = true.
Proof.
  induction l as [|x l IH]; intros s; simpl.
  { exists [], []. rewrite !app_nil_r. by destruct s. }
  unfold bind.
  destruct (import_device_template_plan vm device_template_dict check_mode
              update x) as [[e He] | (us & submit & Hx & Hus & _)].
  { rewrite He. simpl. exists [], []. rewrite !app_nil_r.
    split; [by destruct s|]. split; [apply sublist_nil_l | done]. }
  assert (Hsub : forall us', map name us' `sublist_of` map templateName l ->
            map name (us ++ us') `sublist_of` templateName x :: map templateName l).
  { intros us' H. destruct Hus as [-> | [d ->]]; simpl.
    - by apply sublist_cons.
    - by apply sublist_skip. }
  assert (Hstep : exists r w,
    body vm device_template_dict check_mode update x s
    = (r, mkState (device_template_updates s ++ us) (events s ++ w))
    /\ forallb (fun ev => negb (is_read ev)) w = true).
  { rewrite Hx. destruct submit.
    - destruct (add_device_template_writes vm x
                  (mkState (device_template_updates s ++ us) (events s)))
        as (r & w & -> & Hw & _). by exists r, w.
    - exists (inr tt), []. by rewrite app_nil_r. }
  destruct Hstep as (r & w & -> & Hw). destruct r as [e|[]]; simpl.
  - exists us, w. split; [done|]. split; [|done].
    rewrite <- (app_nil_r us). apply Hsub, sublist_nil_l.
  - destruct (IH (mkState (device_template_updates s ++ us) (events s ++ w)))
      as (us' & w' & -> & Hus' & Hw'). simpl.
    exists (us ++ us'), (w ++ w'). rewrite !app_assoc.
    split; [done|]. split; [by apply Hsub|].
    by rewrite forallb_app, Hw, Hw'.
Qed.

(** X5.  The list [import_device_template_list] returns holds at most one
    record per desired template, in the order of the desired list: the
    names of the records are a subsequence of the names of the desired
    templates. *)
Theorem import_records_in_input_order
    (vm : Remote) (device_template_list : list DeviceTemplate)
    (check_mode update : bool) (s : st) (l : list ChangeRecord) :
  returned (import_device_template_list dictdiffer_diff vm
              device_template_list check_mode update s) = Some l ->
  map name l `sublist_of` map templateName device_template_list
  /\ length l <= length device_template_list.
Proof.
  unfold returned, import_device_template_list, bind. simpl.
  destruct (get_device_template_dict vm false [] _) as [[e|dict] s1] eqn:Hf;
    [done|].
  destruct (reads_only_get_device_template_dict (DiffOp := DiffOp) vm false []
              (mkState [] (events s))) as (evs & Hs1 & _).
  rewrite Hf in Hs1. simpl in Hs1. subst s1.
  destruct (for_each_trace vm dict check_mode update device_template_list
              (mkState [] (events s ++ evs))) as (us & w & Hrun & Hus & _).
  destruct (for_each _ device_template_list _) as [[e|[]] s2]; [done|].
  simpl in *. subst s2. simpl. intros [= <-].
  split; [done|]. apply sublist_length in Hus. by rewrite !length_map in Hus.
Qed.

(** X8.  Whether it returns or raises, [import_device_template_list] reads
    the device templates first and writes after: the events it adds are
    the reading requests of the catalog fetch followed by calls of
    [add_device_template] and their posts; no device-template endpoint is
    read once the first template has been submitted.  (The events are the
    requests of this class; the feature catalog is read by
    [FeatureTemplates].) *)
Theorem import_reads_then_writes
    (vm : Remote) (device_template_list : list DeviceTemplate)
    (check_mode update : bool) (s : st) :
  exists reads writes,
    events (import_device_template_list dictdiffer_diff vm
              device_template_list check_mode update s).2
    = events s ++ reads ++ writes
    /\ forallb is_read reads = true
    /\ forallb (fun ev => negb (is_read ev)) writes = true.
Proof.
  unfold import_device_template_list, bind. simpl.
  destruct (reads_only_get_device_template_dict (DiffOp := DiffOp) vm false []
              (mkState [] (events s))) as (evs & Hs1 & Hevs).
  destruct (get_device_template_dict vm false [] _) as [[e|dict] s1];
    simpl in Hs1; subst s1; simpl.
  { exists evs, []. by rewrite app_nil_r. }
  destruct (for_each_trace vm dict check_mode update device_template_list
              (mkState [] (events s ++ evs))) as (us & w & Hrun & _ & Hw).
  destruct (for_each _ device_template_list _) as [[e|[]] s2];
    simpl in *; subst s2; simpl; exists evs, w; by rewrite app_assoc.
Qed.

Lemma for_each_submits_absent vm device_template_dict
    (l : list DeviceTemplate) : forall s s' : st,
  for_each (body vm device_template_dict false false) l s = (inr tt, s') ->
  add_calls (events s')
  = add_calls (events s) ++ List.filter (absent device_template_dict) l.
Proof.
  induction l as [|x l IH]; intros s s'; simpl.
  { intros [= <-]. by rewrite app_nil_r. }
  unfold bind.
  destruct (import_device_template_plan vm device_template_dict false false x)
    as [[e He] | (us & submit & Hx & _ & _ & Hsub & Habs)].
  { by rewrite He. }
  rewrite Hx. destruct submit.
  - rewrite (Hsub eq_refl eq_refl).
    destruct (add_device_template_writes vm x
                (mkState (device_template_updates s ++ us) (events s)))
      as (r & w & -> & _ & Hw).
    destruct r as [e|[]]; [done|]. intros H. rewrite (IH _ _ H). simpl.
    rewrite add_calls_app, Hw. by rewrite <- app_assoc.
  - destruct (absent device_template_dict x); [by discriminate Habs|].
    intros H. by rewrite (IH _ _ H).
Qed.

(** X6.  When [import_device_template_list] returns after a run with
    [check_mode = False] and [update = False], the templates it submitted
    are exactly the desired templates whose name is not a key of the
    fetched catalog, in the order of the desired list and as often as they
    are listed: a template whose name exists is never submitted, and a new
    template listed twice is submitted twice. *)
Theorem import_without_update_submits_new_only
    (vm : Remote) (device_template_list : list DeviceTemplate)
    (device_template_dict : gmap string DeviceTemplate)
    (s s' : st) (l : list ChangeRecord) :
  (get_device_template_dict vm false [] (mkState [] (events s) : st)).1
  = inr device_template_dict ->
  import_device_template_list dictdiffer_diff vm device_template_list
    false false s = (inr l, s') ->
  add_calls (events s')
  = add_calls (events s)
    ++ List.filter (absent device_template_dict) device_template_list.
Proof.
  unfold import_device_template_list, bind. simpl.
  destruct (reads_only_get_device_template_dict (DiffOp := DiffOp) vm false []
              (mkState [] (events s))) as (evs & Hs1 & Hevs).
  destruct (get_device_template_dict vm false [] _) as [[e|dict] s1];
    simpl in Hs1; subst s1; simpl; [done|]. intros [= ->].
  destruct (for_each _ device_template_list _) as [[e|[]] s2] eqn:Hrun;
    [done|]. intros [= _ <-].
  rewrite (for_each_submits_absent _ _ _ _ _ Hrun). simpl.
  by rewrite add_calls_app, (add_calls_reads evs), app_nil_r.
Qed.

Lemma import_device_template_up_to_date vm device_template_dict
    check_mode update device_template (s : st) :
  (forall v, dictdiffer_diff v v = []) ->
  up_to_date device_template_dict device_template ->
  body vm device_template_dict check_mode update device_template s
  = (inr tt, s).
Proof.
  intros Hrefl (existing & v & Hdict & Hone & Hspec).
  unfold import_device_template, exactly_one_payload, spec_payloads in *.
  rewrite Hdict.
  destruct (generalTemplates existing) as [gold|],
           (generalTemplates device_template) as [gnew|],
           (templateConfiguration existing) as [cold|],
           (templateConfiguration device_template) as [cnew|];
    try discriminate; injection Hspec as <- Heq; simplify_eq;
    unfold bind, ret; by rewrite Hrefl.
Qed.

(** X7.  With a diff that is empty on equal values, importing templates
    that the catalog already holds with the same payload changes nothing:
    the call returns the empty list, enters [add_device_template] for none
    of them and posts nothing, whatever [check_mode] and [update] are. *)
Theorem import_up_to_date_is_noop
    (vm : Remote) (device_template_list : list DeviceTemplate)
    (device_template_dict : gmap string DeviceTemplate)
    (check_mode update : bool) (s : st) :
  (forall v, dictdiffer_diff v v = []) ->
  (get_device_template_dict vm false [] (mkState [] (events s) : st)).1
  = inr device_template_dict ->
  Forall (up_to_date device_template_dict) device_template_list ->
  let out := import_device_template_list dictdiffer_diff vm
               device_template_list check_mode update s in
  returned out = Some []
  /\ add_calls (events out.2) = add_calls (events s)
  /\ submissions (events out.2) = submissions (events s).
Proof.
  intros Hrefl Hfetch Hall out. subst out.
  unfold returned, import_device_template_list, bind. simpl.
  destruct (reads_only_get_device_template_dict (DiffOp := DiffOp) vm false []
              (mkState [] (events s))) as (evs & Hs1 & Hevs).
  destruct (get_device_template_dict vm false [] _) as [[e|dict] s1];
    simpl in Hs1, Hfetch; subst s1; [done|]. injection Hfetch as ->.
  assert (Hrun : forall s0 : st,
    for_each (body vm device_template_dict check_mode update)
             device_template_list s0 = (inr tt, s0)).
  { induction Hall as [|x l Hx _ IH]; intros s0; simpl; [done|].
    unfold bind. by rewrite import_device_template_up_to_date. }
  rewrite Hrun. simpl.
  rewrite add_calls_app, submissions_app.
  by rewrite (add_calls_reads evs), (submissions_reads evs), !app_nil_r.
Qed.

(** X9.  In check mode the flag [update] has no effect at all: the two
    calls have the same outcome and leave the same state. *)
Theorem import_check_mode_ignores_update
    (vm : Remote) (device_template_list : list DeviceTemplate)
    (update update' : bool) (s : st) :
  import_device_template_list dictdiffer_diff vm device_template_list
    true update s
  = import_device_template_list dictdiffer_diff vm device_template_list
      true update' s.
Proof.
  unfold import_device_template_list, bind. simpl.
  destruct (get_device_template_dict vm false [] _) as [[e|dict] s1];
    [done|].
  rewrite (for_each_ext (body vm dict true update) (body vm dict true update'));
    [done|].
  intros x s0. unfold import_device_template, bind, ret, raise.
  destruct (dict !! templateName x) as [existing|]; [|done].
  destruct (generalTemplates x);
    try destruct (generalTemplates existing);
    try destruct (templateConfiguration x);
    try destruct (templateConfiguration existing);
    simpl; try done; by destruct (bool_decide (_ = [])).
Qed.

Lemma import_device_template_update vm device_template_dict device_template
    (s_up s_no s_up' : st) :
  device_template_updates s_up = device_template_updates s_no ->
  body vm device_template_dict false true device_template s_up
  = (inr tt, s_up') ->
  exists s_no',
    body vm device_template_dict false false device_template s_no
    = (inr tt, s_no')
    /\ device_template_updates s_up' = device_template_updates s_no'.
Proof.
  intros Hsame.
  assert (Hadd : forall us,
    add_device_template vm device_template
      (mkState (device_template_updates s_up ++ us) (events s_up))
    = (inr tt, s_up') ->
    device_template_updates s_up' = device_template_updates s_no ++ us
    /\ exists s_no',
         add_device_template vm device_template
           (mkState (device_template_updates s_no ++ us) (events s_no))
         = (inr tt, s_no')
         /\ device_template_updates s_no'
            = device_template_updates s_no ++ us).
  { intros us H.
    pose proof (add_device_template_returns_anywhere vm device_template _
                  (mkState (device_template_updates s_no ++ us) (events s_no))
                  (f_equal fst H)) as Hret.
    destruct (add_device_template_writes vm device_template
                (mkState (device_template_updates s_up ++ us) (events s_up)))
      as (r & w & Heq & _).
    rewrite Heq in H. injection H as _ <-. simpl. rewrite Hsame.
    split; [done|].
    destruct (add_device_template_writes vm device_template
                (mkState (device_template_updates s_no ++ us) (events s_no)))
      as (r' & w' & Heq' & _).
    rewrite Heq' in Hret |- *. simpl in Hret. subst r'. eauto. }
  unfold import_device_template, bind, ret, raise, append_update.
  destruct (device_template_dict !! templateName device_template)
    as [existing|];
    destruct (generalTemplates device_template) as [gts|];
    try destruct (generalTemplates existing);
    try destruct (templateConfiguration device_template);
    try destruct (templateConfiguration existing);
    simpl; try done;
    try destruct (bool_decide (_ = [])); simpl;
    intros H;
    try (injection H as <-; simpl; rewrite ?Hsame; by eauto);
    destruct (Hadd _ H) as (Hup & s_no' & Hrun & Hno);
    try (eexists; split; [exact Hrun|]; congruence);
    eexists; (split; [done|]); simpl; congruence.
Qed.

Lemma for_each_update vm device_template_dict (l : list DeviceTemplate) :
  forall s_up s_no s_up' : st,
  device_template_updates s_up = device_template_updates s_no ->
  for_each (body vm device_template_dict false true) l s_up
  = (inr tt, s_up') ->
  exists s_no',
    for_each (body vm device_template_dict false false) l s_no
    = (inr tt, s_no')
    /\ device_template_updates s_up' = device_template_updates s_no'.
Proof.
  induction l as [|x l IH]; intros s_up s_no s_up' Hsame; simpl.
  - intros [= <-]. eauto.
  - unfold bind.
    destruct (body vm device_template_dict false true x s_up)
      as [[e|[]] s1] eqn:Hx; [done|].
    destruct (import_device_template_update _ _ _ _ s_no _ Hsame Hx)
      as (s2 & -> & Hsame'). by apply IH.
Qed.

(** X10.  The flag [update] decides what is submitted, not what is
    reported: when the call with [check_mode = False] and [update = True]
    returns a list, the call with [update = False] on the same inputs
    returns the same list. *)
Theorem import_update_keeps_report
    (vm : Remote) (device_template_list : list DeviceTemplate)
    (s : st) (l : list ChangeRecord) :
  returned (import_device_template_list dictdiffer_diff vm
              device_template_list false true s) = Some l ->
  returned (import_device_template_list dictdiffer_diff vm
              device_template_list false false s) = Some l.
Proof.
  unfold returned, import_device_template_list, bind. simpl.
  destruct (get_device_template_dict vm false [] _) as [[e|dict] s1];
    [done|].
  destruct (for_each (body vm dict false true) device_template_list s1)
    as [[e|[]] s_up] eqn:Hup; [done|].
  destruct (for_each_update _ _ _ _ s1 _ eq_refl Hup) as (s_no & -> & Hsame).
  simpl. by rewrite Hsame.
Qed.

Lemma for_each_add_calls vm device_template_dict check_mode update
    (l : list DeviceTemplate) : forall s : st,
  exists w,
    events (for_each (body vm device_template_dict check_mode update) l s).2
    = events s ++ w
    /\ add_calls w `sublist_of` l.
Proof.
  induction l as [|x l IH]; intros s; simpl.
  { exists []. by rewrite app_nil_r. }
  unfold bind.
  destruct (import_device_template_plan vm device_template_dict check_mode
              update x) as [[e He] | (us & submit & Hx & _)].
  { rewrite He. simpl. exists []. rewrite app_nil_r.
    split; [done | apply sublist_nil_l]. }
  rewrite Hx. destruct submit.
  - destruct (add_device_template_writes vm x
                (mkState (device_template_updates s ++ us) (events s)))
      as (r & w & -> & _ & Hw).
    destruct r as [e|[]]; simpl.
    + exists w. split; [done|]. rewrite Hw.
      apply sublist_skip, sublist_nil_l.
    + destruct (IH (mkState (device_template_updates s ++ us) (events s ++ w)))
        as (w' & -> & Hw'). simpl.
      exists (w ++ w'). rewrite app_assoc. split; [done|].
      rewrite add_calls_app, Hw. simpl. by apply sublist_skip.
  - destruct (IH (mkState (device_template_updates s ++ us) (events s)))
      as (w' & -> & Hw'). simpl.
    exists w'. split; [done|]. by apply sublist_cons.
Qed.

(** X16.  Whatever the flags, and whether it returns or raises,
    [import_device_template_list] enters [add_device_template] only with
    templates of the desired list, each at most as often as it is listed,
    and in the order of the list: the templates submitted are a
    subsequence of the desired list. *)
Theorem import_submits_desired_only
    (vm : Remote) (device_template_list : list DeviceTemplate)
    (check_mode update : bool) (s : st) :
  exists w,
    events (import_device_template_list dictdiffer_diff vm
              device_template_list check_mode update s).2
    = events s ++ w
    /\ add_calls w `sublist_of` device_template_list.
Proof.
  unfold import_device_template_list, bind. simpl.
  destruct (reads_only_get_device_template_dict (DiffOp := DiffOp) vm false []
              (mkState [] (events s))) as (evs & Hs1 & Hevs).
  destruct (get_device_template_dict vm false [] _) as [[e|dict] s1];
    simpl in Hs1; subst s1; simpl.
  { exists evs. split; [done|]. rewrite (add_calls_reads evs) by done.
    apply sublist_nil_l. }
  destruct (for_each_add_calls vm dict check_mode update device_template_list
              (mkState [] (events s ++ evs))) as (w & Hrun & Hw).
  destruct (for_each _ device_template_list _) as [[e|[]] s2];
    simpl in *; rewrite Hrun; exists (evs ++ w);
    rewrite app_assoc; (split; [done|]);
    by rewrite add_calls_app, (add_calls_reads evs).
Qed.

End Import_further.

(** ** The listing, further *)

Section Listing_further.

Context {DiffOp : Type}.
Local Abbreviation st := (state (DiffOp := DiffOp)).

(** X11.  Every element of the list [get_device_template_list] returns
    carries [generalTemplates], [attached_devices] and [input]; and unless
    factory defaults were asked for, none of them is a factory default. *)
Theorem get_device_template_list_elements
    (vm : Remote) (factory_default : bool) (name_list : list string)
    (s : st) (l : list DeviceTemplate) :
  returned (get_device_template_list vm factory_default name_list s) = Some l ->
  Forall (fun t =>
            is_Some (generalTemplates t)
            /\ is_Some (attached_devices t)
            /\ is_Some (input t)
            /\ (factory_default = false -> factoryDefault t = Some false)) l.
Proof.
  unfold returned, get_device_template_list, get_device_templates, bind, emit.
  simpl.
  match goal with
  | |- context [mapM ?f ?l0 ?s0] =>
      destruct (mapM f l0 s0) as [[e|items] s1] eqn:Hitems
  end; [done|].
  simpl. intros [= <-].
  eapply (mapM_returns _
            (fun o => forall t, o = Some t ->
               is_Some (generalTemplates t)
               /\ is_Some (attached_devices t)
               /\ is_Some (input t)
               /\ (factory_default = false -> factoryDefault t = Some false)))
    in Hitems.
  - induction Hitems as [|o items Ho _ IH]; simpl; [done|].
    destruct o as [t|]; simpl; [|done]. constructor; [by apply Ho | done].
  - clear. intros device s y s'.
    unfold get_device_template_list_item, get_device_template_object, bind,
      emit, ret. simpl.
    destruct (_ && _); [by intros [= <- _]|].
    destruct (rem_device_objects vm !! ds_templateId device) as [obj|];
      [|by intros [= <- _]].
    destruct (negb factory_default && so_factoryDefault obj) eqn:Hfd;
      [by intros [= <- _]|].
    destruct (so_generalTemplates obj); [|by intros [= <- _]].
    destruct (generalTemplates_to_name _ _ _) as [[e|gts] s1]; [done|].
    destruct (get_template_attachments _ _ _ _) as [[e|att] s2]; [done|].
    destruct (get_template_input _ _ _) as [[e|inp] s3]; [done|].
    intros [= <- _] t [= <-]. simpl. repeat (split; [eauto|]).
    intros ->. simpl in Hfd. by rewrite Hfd.
Qed.

(** X12.  [get_template_attachments] issues one request and returns, in
    the order of the answer and without removing duplicates, the value
    each attached device holds under [key]; when a device of the answer
    lacks the key it raises [KeyError] and returns nothing. *)
Theorem get_template_attachments_values
    (vm : Remote) (template_id key : string) (s : st) :
  let out := get_template_attachments vm template_id key s in
  out.2 = mkState (device_template_updates s)
            (events s
             ++ [Request "GET"
                   ("template/device/config/attached/" +:+ template_id)
                   no_body])
  /\ (Forall (fun device : gmap string string => is_Some (device !! key))
             (rem_attached vm template_id) ->
      exists values,
        out.1 = inr values
        /\ map Some values = map (fun device : gmap string string =>
                                    device !! key)
                                 (rem_attached vm template_id))
  /\ (Exists (fun device : gmap string string => device !! key = None)
             (rem_attached vm template_id) ->
      out.1 = inl (KeyError key)).
Proof.
  unfold get_template_attachments, bind, emit. simpl.
  set (s0 := mkState _ _).
  assert (H : forall (devices : list (gmap string string)) (s1 : st),
    let run := mapM (fun device : gmap string string =>
                       match device !! key with
                       | Some v => ret v
                       | None => raise (KeyError key)
                       end) devices s1 in
    run.2 = s1
    /\ (Forall (fun device : gmap string string => is_Some (device !! key))
               devices ->
        exists values,
          run.1 = inr values
          /\ map Some values
             = map (fun device : gmap string string => device !! key) devices)
    /\ (Exists (fun device : gmap string string => device !! key = None)
               devices ->
        run.1 = inl (KeyError key))).
  { induction devices as [|device devices IH]; intros s1; simpl.
    - split; [done|]. split; [by exists [] | by intros ?%Exists_nil].
    - unfold bind. destruct (device !! key) as [v|] eqn:Hv; simpl.
      + destruct (IH s1) as (Hs & Hok & Hko).
        destruct (mapM _ devices s1) as [[e|vs] s2]; simpl in *.
        * split; [done|]. split.
          -- intros [_ Hall]%Forall_cons.
             destruct (Hok Hall) as (? & ? & _). done.
          -- intros [Hd | Hex]%Exists_cons; [congruence | by apply Hko].
        * split; [done|]. split.
          -- intros [_ Hall]%Forall_cons.
             destruct (Hok Hall) as (vs' & [= <-] & Hmap).
             exists (v :: vs). simpl. by rewrite Hmap.
          -- intros [Hd | Hex]%Exists_cons; [congruence|].
             by specialize (Hko Hex).
      + split; [done|]. split; [|done].
        intros [[? ?] _]%Forall_cons. congruence. }
  destruct (H (rem_attached vm template_id) s0) as (Hs & Hok & Hko).
  destruct (mapM _ (rem_attached vm template_id) s0) as [r s1].
  simpl in *. by subst s1.
Qed.

End Listing_further.

Section Name_list.

Context {DiffOp : Type}.
Local Abbreviation st := (state (DiffOp := DiffOp)).

Lemma mapM_skip {A B} (f g : A -> M st (option B)) (keep : A -> bool)
    (l : list A) :
  (forall x s, keep x = false -> f x s = (inr None, s)) ->
  (forall x s, keep x = true -> f x s = g x s) ->
  forall s,
    match mapM f l s, mapM g (List.filter keep l) s with
    | (inl e, s1), (inl e', s2) => e = e' /\ s1 = s2
    | (inr ys, s1), (inr zs, s2) => omap id ys = omap id zs /\ s1 = s2
    | _, _ => False
    end.
Proof.
  intros Hskip Hkeep. induction l as [|x l IH]; intros s; simpl; [done|].
  destruct (keep x) eqn:Hx; simpl; unfold bind.
  - rewrite (Hkeep _ _ Hx). destruct (g x s) as [[e|y] s1]; [done|].
    specialize (IH s1).
    destruct (mapM f l s1) as [[e|ys] s2],
             (mapM g (List.filter keep l) s1) as [[e'|zs] s3];
      simpl; try done.
    destruct IH as [Heq ->]. split; [|done].
    change (omap id (y :: ys) = omap id (y :: zs)).
    unfold omap in *. simpl. by rewrite Heq.
  - rewrite (Hskip _ _ Hx). specialize (IH s).
    destruct (mapM f l s) as [[e|ys] s2],
             (mapM g (List.filter keep l) s) as [[e'|zs] s3];
      simpl; done.
Qed.

(** X13.  With a non-empty [name_list], the device templates whose name
    is not in the list play no part in [get_device_template_list]: the
    outcome and the requests of the class are those of the same call
    against a server that does not have them.  No object is fetched for
    them, so a broken object among them cannot make the call fail. *)
Theorem get_device_template_list_name_list
    (vm : Remote) (factory_default : bool) (name_list : list string)
    (s : st) :
  name_list <> [] ->
  get_device_template_list vm factory_default name_list s
  = get_device_template_list (only_listed vm name_list) factory_default
      name_list s.
Proof.
  intros Hne.
  pose proof (mapM_skip
                (get_device_template_list_item vm factory_default name_list
                   (get_feature_template_dict vm true ft_templateId))
                (get_device_template_list_item (only_listed vm name_list)
                   factory_default name_list
                   (get_feature_template_dict (only_listed vm name_list)
                      true ft_templateId))
                (listed name_list) (rem_device_templates vm)) as H.
  assert (Hskip : forall (x : DeviceSummary) (s0 : st),
    listed name_list x = false ->
    get_device_template_list_item vm factory_default name_list
      (get_feature_template_dict vm true ft_templateId) x s0
    = (inr None, s0)).
  { intros device s1 Hd. unfold get_device_template_list_item, listed in *.
    rewrite Hd. by rewrite bool_decide_eq_false_2. }
  specialize (H Hskip (fun _ _ _ => eq_refl)).
  unfold get_device_template_list, get_device_templates, bind, emit, ret.
  simpl.
  match goal with
  | |- context [mapM _ (rem_device_templates vm) ?s0] => specialize (H s0)
  end.
  destruct (mapM _ (rem_device_templates vm) _) as [[e|ys] s2],
           (mapM _ (List.filter _ _) _) as [[e'|zs] s3]; try done.
  - by destruct H as [-> ->].
  - by destruct H as [-> ->].
Qed.

End Name_list.

(** ** Ids to names, further *)

Section Names_further.

Context {DiffOp : Type}.
Local Abbreviation st := (state (DiffOp := DiffOp)).

Variable feature_template_dict : gmap string FeatureTemplate.

Local Abbreviation missing e :=
  (exists k, e = KeyError k /\ feature_template_dict !! k = None).

Lemma sub_templates_to_name_outcome (subs : list SubTemplateId) (s : st) :
  exists r, mapM (sub_template_to_name feature_template_dict) subs s = (r, s)
    /\ (forall e, r = inl e -> missing e)
    /\ (forallb (fun sub => bool_decide
                   (is_Some (feature_template_dict !! sti_templateId sub)))
                subs = false ->
        exists e, r = inl e).
Proof.
  induction subs as [|sub subs IH]; simpl.
  - by exists (inr []).
  - unfold bind, sub_template_to_name at 1.
    destruct (feature_template_dict !! sti_templateId sub) as [ft|] eqn:Hft.
    + rewrite bool_decide_eq_true_2 by eauto. simpl.
      destruct IH as (r & -> & He & Hko). destruct r as [e|names].
      * exists (inl e). split; [done|]. split; [|eauto].
        intros ? [= <-]. by apply He.
      * eexists. split; [done|]. split; [done|].
        intros H. by destruct (Hko H).
    + eexists. split; [done|]. split; [|eauto].
      intros e [= <-]. eauto.
Qed.

Lemma template_to_name_outcome (old : GeneralTemplateId) (s : st) :
  exists r, template_to_name feature_template_dict old s = (r, s)
    /\ (forall e, r = inl e -> missing e)
    /\ (id_known feature_template_dict old = false -> exists e, r = inl e).
Proof.
  unfold template_to_name, id_known.
  destruct (feature_template_dict !! gti_templateId old) as [ft|] eqn:Hft.
  2:{ eexists. split; [done|]. split; [|eauto]. intros e [= <-]. eauto. }
  rewrite bool_decide_eq_true_2 by eauto. simpl.
  destruct (gti_subTemplates old) as [subs|]; [|by eexists].
  unfold bind.
  destruct (sub_templates_to_name_outcome subs s) as (r & -> & He & Hko).
  destruct r as [e|names].
  - exists (inl e). split; [done|]. split; [|eauto].
    intros ? [= <-]. by apply He.
  - eexists. split; [done|]. split; [done|]. intros H. by destruct (Hko H).
Qed.

Lemma templates_to_name_outcome (ids : list GeneralTemplateId) (s : st) :
  exists r, generalTemplates_to_name feature_template_dict ids s = (r, s)
    /\ (forall e, r = inl e -> missing e)
    /\ (forallb (id_known feature_template_dict) ids = false ->
        exists e, r = inl e).
Proof.
  unfold generalTemplates_to_name.
  induction ids as [|old ids IH]; simpl.
  - by exists (inr []).
  - unfold bind.
    destruct (template_to_name_outcome old s) as (r & -> & He & Hko).
    destruct r as [e|t].
    + exists (inl e). split; [done|]. split; [|eauto].
      intros ? [= <-]. by apply He.
    + destruct IH as (r & -> & He' & Hko'). destruct r as [e|ts].
      * exists (inl e). split; [done|]. split; [|eauto].
        intros ? [= <-]. by apply He'.
      * eexists. split; [done|]. split; [done|]. intros H.
        destruct (id_known feature_template_dict old) eqn:Hold; simpl in H.
        -- by destruct (Hko' H).
        -- by destruct (Hko eq_refl).
Qed.

End Names_further.

Section Dangling_id.

Context {DiffOp : Type}.
Variable dictdiffer_diff : value -> value -> list DiffOp.
Local Abbreviation st := (state (DiffOp := DiffOp)).

Lemma mapM_raises {A B} (f : A -> M st B) (l : list A) x :
  x ∈ l ->
  (forall s, exists e s', f x s = (inl e, s')) ->
  forall s, exists e s', mapM f l s = (inl e, s').
Proof.
  intros Hin Hx. induction l as [|y l IH]; intros s;
    [by apply elem_of_nil in Hin|].
  simpl. unfold bind. destruct (f y s) as [[e|b] s1] eqn:Hy; [eauto|].
  apply elem_of_cons in Hin as [-> | Hin].
  - destruct (Hx s) as (e & s' & He). congruence.
  - destruct (IH Hin s1) as (e & s' & ->). eauto.
Qed.

(** X14.  One dangling reference breaks the whole listing: if a device
    template that passes the name and factory-default filters has, among
    its [generalTemplates] or their sub-templates, an id the feature
    catalog does not hold, [get_device_template_list] raises and returns
    no list, whatever the other templates are.  The import, which starts
    with that listing, then raises for every desired list, the empty one
    included, before it enters [add_device_template]. *)
Theorem dangling_feature_id_breaks_listing
    (vm : Remote) (factory_default : bool) (name_list : list string)
    (device : DeviceSummary) (obj : ServerObject)
    (old_templates : list GeneralTemplateId) (s : st) :
  device ∈ rem_device_templates vm ->
  name_list = [] \/ ds_templateName device ∈ name_list ->
  rem_device_objects vm !! ds_templateId device = Some obj ->
  factory_default = true \/ so_factoryDefault obj = false ->
  so_generalTemplates obj = Some old_templates ->
  forallb (id_known (get_feature_template_dict vm true ft_templateId))
          old_templates = false ->
  returned (get_device_template_list vm factory_default name_list s) = None
  /\ (factory_default = false -> name_list = [] ->
      forall device_template_list check_mode update,
        let out := import_device_template_list dictdiffer_diff vm
                     device_template_list check_mode update s in
        returned out = None
        /\ add_calls (events out.2) = add_calls (events s)).
Proof.
  intros Hin Hname Hobj Hfd Hgts Hdangling.
  assert (Hitem : forall s0 : st, exists e s',
    get_device_template_list_item vm factory_default name_list
      (get_feature_template_dict vm true ft_templateId) device s0
    = (inl e, s')).
  { intros s0. unfold get_device_template_list_item.
    assert (negb (bool_decide (name_list = []))
            && negb (bool_decide (ds_templateName device ∈ name_list))
            = false) as ->.
    { destruct Hname as [-> | Hn]; [done|].
      rewrite (bool_decide_eq_true_2 _ Hn). by rewrite andb_false_r. }
    unfold get_device_template_object, bind, emit. simpl. rewrite Hobj.
    assert (negb factory_default && so_factoryDefault obj = false) as ->.
    { destruct Hfd as [-> | ->]; [done | by rewrite andb_false_r]. }
    rewrite Hgts.
    match goal with
    | |- context [generalTemplates_to_name ?d old_templates ?s1] =>
        destruct (templates_to_name_outcome d old_templates s1)
          as (r & -> & _ & Hko)
    end.
    destruct (Hko Hdangling) as (e & ->). eauto. }
  assert (Hlist : forall s0 : st,
    exists e s', get_device_template_list vm factory_default name_list s0
                 = (inl e, s')).
  { intros s0. unfold get_device_template_list, get_device_templates, bind,
      emit. simpl.
    match goal with
    | |- context [mapM ?f (rem_device_templates vm) ?s1] =>
        destruct (mapM_raises f (rem_device_templates vm) device Hin Hitem s1)
          as (e & s' & ->)
    end. eauto. }
  split.
  - unfold returned. by destruct (Hlist s) as (e & s' & ->).
  - intros -> -> l check_mode update out. subst out.
    unfold returned, import_device_template_list, get_device_template_dict,
      bind. simpl.
    destruct (reads_only_get_device_template_list (DiffOp := DiffOp) vm
                false [] (mkState [] (events s))) as (evs & Hs1 & Hevs).
    destruct (Hlist (mkState [] (events s))) as (e & s' & Hrun).
    rewrite Hrun in Hs1 |- *. simpl in *. subst s'. simpl.
    by rewrite add_calls_app, (add_calls_reads evs), app_nil_r.
Qed.

End Dangling_id.

Section Listed_names_resolve.

Context {DiffOp : Type}.
Local Abbreviation st := (state (DiffOp := DiffOp)).

(** Both dictionaries index one list: the name found under an id leads
    back to that id. *)
Lemma id_name_id (l : list FeatureTemplate) i ft :
  name_names_one_id l ->
  list_to_dict ft_templateId l !! i = Some ft ->
  exists ft', list_to_dict ft_templateName l !! ft_templateName ft = Some ft'
              /\ ft_templateId ft' = i.
Proof.
  intros Hone [Hin <-]%list_to_dict_lookup.
  destruct (list_to_dict_is_Some ft_templateName l ft Hin) as [ft' Hft'].
  exists ft'. split; [done|].
  apply list_to_dict_lookup in Hft' as [Hin' Hname]. by apply Hone.
Qed.

Variables by_name by_id : gmap string FeatureTemplate.
Hypothesis forth : forall i ft,
  by_id !! i = Some ft ->
  exists ft', by_name !! ft_templateName ft = Some ft'
              /\ ft_templateId ft' = i.

Lemma sub_templates_names_resolve (ids : list SubTemplateId) :
  forall subs (s s1 s2 : st),
  mapM (sub_template_to_name by_id) ids s = (inr subs, s1) ->
  mapM (sub_template_to_id by_name) subs s2 = (inr ids, s2).
Proof.
  induction ids as [|i ids IH]; intros subs s s1 s2; simpl.
  - by intros [= <- _].
  - unfold bind at 1, sub_template_to_name at 1.
    destruct (by_id !! sti_templateId i) as [ft|] eqn:Hft; [|done].
    simpl. unfold bind at 1.
    destruct (mapM (sub_template_to_name by_id) ids s) as [[e|subs'] s'] eqn:Hrun;
      [done|]. simpl. intros [= <- _]. simpl.
    unfold bind at 1, sub_template_to_id at 1. simpl.
    destruct (forth _ _ Hft) as (ft' & -> & Hid). simpl.
    unfold bind. rewrite (IH _ _ _ s2 Hrun). simpl.
    rewrite Hid. by destruct i.
Qed.

Lemma template_name_resolves (i : GeneralTemplateId) (t : GeneralTemplate)
    (s s1 s2 : st) :
  template_to_name by_id i s = (inr t, s1) ->
  template_to_id by_name t s2 = (inr i, s2).
Proof.
  unfold template_to_name.
  destruct i as [i ty subs]; simpl.
  destruct (by_id !! i) as [ft|] eqn:Hft; [|done].
  destruct (forth _ _ Hft) as (ft' & Hname & Hid).
  destruct subs as [subs|].
  - unfold bind at 1.
    destruct (mapM (sub_template_to_name by_id) subs s) as [[e|names] s'] eqn:Hrun;
      [done|]. simpl. intros [= <- _].
    unfold template_to_id. simpl. rewrite Hname. unfold bind.
    rewrite (sub_templates_names_resolve _ _ _ _ s2 Hrun). simpl.
    by rewrite Hid.
  - intros [= <- _]. unfold template_to_id. simpl. rewrite Hname. simpl.
    by rewrite Hid.
Qed.

Lemma templates_names_resolve (ids : list GeneralTemplateId) :
  forall gts (s s1 s2 : st),
  mapM (template_to_name by_id) ids s = (inr gts, s1) ->
  mapM (template_to_id by_name) gts s2 = (inr ids, s2).
Proof.
  induction ids as [|i ids IH]; intros gts s s1 s2; simpl.
  - by intros [= <- _].
  - unfold bind at 1.
    destruct (template_to_name by_id i s) as [[e|t] s'] eqn:Ht; [done|].
    unfold bind at 1.
    destruct (mapM (template_to_name by_id) ids s') as [[e|gts'] s''] eqn:Hrun;
      [done|]. simpl. intros [= <- _]. simpl.
    unfold bind. rewrite (template_name_resolves _ _ _ _ s2 Ht).
    by rewrite (IH _ _ _ s2 Hrun).
Qed.

End Listed_names_resolve.

Section Listed_names_resolve_remote.

Context {DiffOp : Type}.
Local Abbreviation st := (state (DiffOp := DiffOp)).

(** X15.  What the listing makes of a server-side [generalTemplates]
    sequence resolves back to that sequence: when the conversion to names
    returns, [generalTemplates_to_id] run on its result returns the ids
    the server had, in the same order, with the same types and
    sub-templates.  The catalog is one in which a name stands for one
    id. *)
Theorem listed_generalTemplates_resolve_back
    (vm : Remote) (old_templates : list GeneralTemplateId)
    (generalTemplates : list GeneralTemplate) (s s' : st) :
  name_names_one_id (rem_feature_templates vm) ->
  returned (generalTemplates_to_name
              (get_feature_template_dict vm true ft_templateId)
              old_templates s) = Some generalTemplates ->
  generalTemplates_to_id vm generalTemplates s' = (inr old_templates, s').
Proof.
  intros Hone. unfold returned, generalTemplates_to_name,
    generalTemplates_to_id.
  destruct (mapM _ old_templates s) as [[e|gts] s1] eqn:Hrun; [done|].
  simpl. intros [= <-].
  eapply templates_names_resolve; [|exact Hrun].
  intros i ft. unfold get_feature_template_dict. apply id_name_id.
  intros a b [_ Ha]%list_elem_of_filter [_ Hb]%list_elem_of_filter.
  by apply Hone.
Qed.

End Listed_names_resolve_remote.

(** * The further properties at sample inputs *)

Lemma generalTemplates_to_id_faithful_witness :
  returned (generalTemplates_to_id remote_empty nodes_known state_0)
  = Some [mkGeneralTemplateId "id-A" "cisco_leaf"
            (Some [mkSubTemplateId "id-B" "cisco_sub"]);
          mkGeneralTemplateId "id-F" "aaa" None]
  /\ Forall2 (node_resolved
                (get_feature_template_dict remote_empty true ft_templateName))
       nodes_known
       [mkGeneralTemplateId "id-A" "cisco_leaf"
          (Some [mkSubTemplateId "id-B" "cisco_sub"]);
        mkGeneralTemplateId "id-F" "aaa" None].
Proof.
  assert (H : returned (generalTemplates_to_id remote_empty nodes_known state_0)
              = Some [mkGeneralTemplateId "id-A" "cisco_leaf"
                        (Some [mkSubTemplateId "id-B" "cisco_sub"]);
                      mkGeneralTemplateId "id-F" "aaa" None])
    by reflexivity.
  split; [exact H|].
  exact (generalTemplates_to_id_faithful remote_empty nodes_known _ state_0 H).
Defined.

Lemma generalTemplates_to_id_first_failure_witness :
  forallb (resolvable
             (get_feature_template_dict remote_empty true ft_templateName))
          nodes_known = true
  /\ generalTemplates_to_id remote_empty
       (nodes_known ++ node_unnamed :: nodes_unknown) state_0
     = (inl (AttributeError "result"), state_0)
  /\ generalTemplates_to_id remote_empty
       (nodes_known ++ node_unknown_sub :: [node_unnamed]) state_0
     = (inl (AttributeError "fail_json"), state_0).
Proof.
  assert (H : forallb (resolvable
                (get_feature_template_dict remote_empty true ft_templateName))
                nodes_known = true) by reflexivity.
  split; [exact H|]. split.
  - exact (proj1 (generalTemplates_to_id_first_failure remote_empty nodes_known
                    nodes_unknown node_unnamed state_0 H) eq_refl).
  - refine (proj2 (proj2 (generalTemplates_to_id_first_failure remote_empty
                            nodes_known [node_unnamed] node_unknown_sub
                            state_0 H))
                  "leaf-A" [mkSubTemplate "sub-B" "cisco_sub"]
                  (mkSubTemplate "sub-X" "cisco_sub") [] eq_refl _ eq_refl
                  eq_refl eq_refl).
    eexists. reflexivity.
Defined.

Lemma add_device_template_posts_once_witness :
  (add_device_template remote_empty template_F1 state_0).1 = inr tt
  /\ exists p,
       submissions (events (add_device_template remote_empty template_F1
                              state_0).2) = [p]
       /\ p_templateName p = "F1" /\ p_policyId p = EmptyString
       /\ p_templateConfiguration p = Some "hostname r1"
       /\ p_generalTemplates p = None.
Proof.
  assert (H : (add_device_template remote_empty template_F1 state_0).1 = inr tt)
    by reflexivity.
  split; [exact H|].
  destruct (add_device_template_posts_once remote_empty template_F1 state_0)
    as (_ & _ & _ & Hp).
  destruct (Hp H) as (p & Hsub & Hname & _ & _ & _ & Hct & Hpol & _ & Hbody).
  exists p. split; [exact Hsub|]. split; [exact Hname|]. split; [exact Hpol|].
  destruct Hbody as [(_ & _ & Hcfg & Hgts) | (Hnot & _)].
  - split; [exact Hcfg | exact Hgts].
  - injection Hct as Hct. symmetry in Hct. destruct (Hnot Hct).
Defined.


Lemma import_records_in_input_order_witness :
  returned (import_device_template_list change_diff remote_feature
              [template_F1; template_T1_unchanged; template_T1] false false
              state_0)
  = Some [mkChangeRecord "F1" (change_diff empty_dict (text "hostname r1"));
          mkChangeRecord "T1"
            (change_diff
               (templates [mkGeneralTemplate (Some "leaf-A") "cisco_leaf"
                             None])
               (templates nodes_known))]
  /\ ["F1"; "T1"] `sublist_of` ["F1"; "T1"; "T1"].
Proof.
  assert (H :
    returned (import_device_template_list change_diff remote_feature
                [template_F1; template_T1_unchanged; template_T1] false false
                state_0)
    = Some [mkChangeRecord "F1" (change_diff empty_dict (text "hostname r1"));
            mkChangeRecord "T1"
              (change_diff
                 (templates [mkGeneralTemplate (Some "leaf-A") "cisco_leaf"
                               None])
                 (templates nodes_known))]) by reflexivity.
  split; [exact H|].
  exact (proj1 (import_records_in_input_order change_diff remote_feature _
                  false false state_0 _ H)).
Defined.

Lemma import_without_update_submits_new_only_witness :
  add_calls (events (import_device_template_list change_diff remote_feature
                       [template_F1; template_T1; template_F1] false false
                       state_0).2)
  = [template_F1; template_F1].
Proof.
  eassert (Hrun :
    import_device_template_list change_diff remote_feature
      [template_F1; template_T1; template_F1] false false state_0
    = (inr _, _)) by reflexivity.
  rewrite Hrun.
  exact (import_without_update_submits_new_only change_diff remote_feature
           [template_F1; template_T1; template_F1]
           {[ "T1" := existing_T1 ]} state_0 _ _ eq_refl Hrun).
Defined.

Lemma change_diff_same v : change_diff v v = [].
Proof. unfold change_diff. by destruct (decide (v = v)). Qed.

Lemma import_up_to_date_is_noop_witness :
  returned (import_device_template_list change_diff remote_feature
              [template_T1_unchanged; template_T1_unchanged] false true
              state_0) = Some []
  /\ submissions (events (import_device_template_list change_diff
                            remote_feature
                            [template_T1_unchanged; template_T1_unchanged]
                            false true state_0).2) = [].
Proof.
  assert (Hup : up_to_date {[ "T1" := existing_T1 ]} template_T1_unchanged).
  { exists existing_T1, (templates [mkGeneralTemplate (Some "leaf-A")
                                      "cisco_leaf" None]).
    split; [reflexivity|]. split; reflexivity. }
  assert (Hall : Forall (up_to_date {[ "T1" := existing_T1 ]})
                        [template_T1_unchanged; template_T1_unchanged])
    by (repeat constructor; exact Hup).
  destruct (import_up_to_date_is_noop change_diff remote_feature
              [template_T1_unchanged; template_T1_unchanged]
              {[ "T1" := existing_T1 ]} false true state_0
              change_diff_same eq_refl Hall)
    as (Hret & _ & Hsub).
  split; [exact Hret | exact Hsub].
Defined.

Lemma import_update_keeps_report_witness :
  returned (import_device_template_list change_diff remote_feature
              [template_T1; template_F1] false true state_0)
  = returned (import_device_template_list change_diff remote_feature
                [template_T1; template_F1] false false state_0)
  /\ returned (import_device_template_list change_diff remote_feature
                 [template_T1; template_F1] false false state_0) <> None.
Proof.
  eassert (H :
    returned (import_device_template_list change_diff remote_feature
                [template_T1; template_F1] false true state_0) = Some _)
    by reflexivity.
  pose proof (import_update_keeps_report change_diff remote_feature _ state_0
                _ H) as H'.
  split; [by rewrite H, H' | by rewrite H'].
Defined.

Lemma get_device_template_list_elements_witness :
  returned (get_device_template_list remote_feature false [] state_0)
  = Some [existing_T1]
  /\ is_Some (input existing_T1) /\ factoryDefault existing_T1 = Some false.
Proof.
  assert (H : returned (get_device_template_list remote_feature false []
                          state_0) = Some [existing_T1]) by reflexivity.
  split; [exact H|].
  pose proof (get_device_template_list_elements remote_feature false []
                state_0 _ H) as Hall.
  apply Forall_cons in Hall as [(_ & _ & Hinp & Hfd) _].
  split; [exact Hinp | exact (Hfd eq_refl)].
Defined.

Lemma get_template_attachments_values_witness :
  (get_template_attachments remote_feature "dt-1" "host-name" state_0).1
  = inr ["r1"]
  /\ (get_template_attachments remote_feature "dt-1" "uuid" state_0).1
     = inl (KeyError "uuid").
Proof.
  split; [reflexivity|].
  apply (get_template_attachments_values remote_feature "dt-1" "uuid" state_0).
  apply Exists_cons_hd. reflexivity.
Defined.

Lemma get_device_template_list_name_list_witness :
  returned (get_device_template_list remote_dangling false ["T1"] state_0)
  = Some [existing_T1]
  /\ rem_device_templates (only_listed remote_dangling ["T1"])
     = [mkDeviceSummary "T1" "dt-1"].
Proof.
  split; [|reflexivity].
  rewrite (get_device_template_list_name_list remote_dangling false ["T1"]
             state_0); [reflexivity | discriminate].
Defined.

Lemma dangling_feature_id_breaks_listing_witness :
  returned (get_device_template_list remote_dangling false [] state_0) = None
  /\ returned (import_device_template_list change_diff remote_dangling []
                 true false state_0) = None.
Proof.
  destruct (dangling_feature_id_breaks_listing change_diff remote_dangling
              false [] (mkDeviceSummary "T2" "dt-2")
              (mkServerObject "T2" "hub" "vedge-cloud" "template" false
                 (Some [mkGeneralTemplateId "id-A" "cisco_leaf"
                          (Some [mkSubTemplateId "id-Z" "cisco_sub"])])
                 None)
              [mkGeneralTemplateId "id-A" "cisco_leaf"
                 (Some [mkSubTemplateId "id-Z" "cisco_sub"])]
              state_0) as (Hlist & Himport).
  - apply list_elem_of_further, list_elem_of_here.
  - by left.
  - reflexivity.
  - by right.
  - reflexivity.
  - reflexivity.
  - split; [exact Hlist|].
    exact (proj1 (Himport eq_refl eq_refl [] true false)).
Defined.

Lemma listed_generalTemplates_resolve_back_witness :
  name_names_one_id (rem_feature_templates remote_feature)
  /\ returned (generalTemplates_to_name
                 (get_feature_template_dict remote_feature true ft_templateId)
                 [mkGeneralTemplateId "id-A" "cisco_leaf"
                    (Some [mkSubTemplateId "id-B" "cisco_sub"])]
                 state_0)
     = Some [mkGeneralTemplate (Some "leaf-A") "cisco_leaf"
               (Some [mkSubTemplate "sub-B" "cisco_sub"])]
  /\ generalTemplates_to_id remote_feature
       [mkGeneralTemplate (Some "leaf-A") "cisco_leaf"
          (Some [mkSubTemplate "sub-B" "cisco_sub"])] state_0
     = (inr [mkGeneralTemplateId "id-A" "cisco_leaf"
               (Some [mkSubTemplateId "id-B" "cisco_sub"])], state_0).
Proof.
  assert (H1 : name_names_one_id (rem_feature_templates remote_feature)).
  { intros a b Ha Hb. simpl in Ha, Hb. unfold sample_feature_templates in *.
    repeat (apply elem_of_cons in Ha as [-> | Ha]);
      try (by apply elem_of_nil in Ha);
      repeat (apply elem_of_cons in Hb as [-> | Hb]);
      try (by apply elem_of_nil in Hb);
      simpl; intros H; try reflexivity; discriminate H. }
  assert (H2 :
    returned (generalTemplates_to_name
                (get_feature_template_dict remote_feature true ft_templateId)
                [mkGeneralTemplateId "id-A" "cisco_leaf"
                   (Some [mkSubTemplateId "id-B" "cisco_sub"])]
                state_0)
    = Some [mkGeneralTemplate (Some "leaf-A") "cisco_leaf"
              (Some [mkSubTemplate "sub-B" "cisco_sub"])]) by reflexivity.
  split; [exact H1|]. split; [exact H2|].
  exact (listed_generalTemplates_resolve_back remote_feature _ _ state_0
           state_0 H1 H2).
Defined.
